(** * Verification of the SPEED dataloader utilities

    A shallow embedding of [model/dataloader_utils.py]: the pinhole camera
    model, the quaternion to direction-cosine-matrix conversion, the point
    projector, the axis rescaling helper and the construction of the dataset
    index.

    Floating point numbers are idealised as real numbers.  A numpy division
    whose result would be [inf] or [nan] has no real counterpart; it is
    reported as the outcome [Raise NonFinite].  Python exceptions are the
    other constructors of [exn].

    The reals describe the operations the program performs, not their
    rounding.  Where a statement compares the results of two different
    computations, the rounding matters: module [Binary64] transcribes
    [quat2dcm] and [scalePoseVector] once more over IEEE-754 binary64
    numbers, so that the arithmetic of the program itself can be evaluated
    on concrete inputs. *)

From Stdlib Require Import Floats Reals Lra Psatz ZArith.
From stdpp Require Import base list gmap strings.

(** ** Outcomes of Python code *)

Inductive exn :=
| ValueError
| IndexError
| KeyError
| AttributeError
| ZeroDivisionError
| FileNotFoundError
| NonFinite.

Inductive result (A : Type) :=
| Ok (a : A)
| Raise (e : exn).
Arguments Ok {A} a.
Arguments Raise {A} e.

#[global] Instance result_ret : MRet result := fun _ a => Ok a.
#[global] Instance result_bind : MBind result :=
  fun _ _ f m => match m with Ok a => f a | Raise e => Raise e end.

(** ** A small model of numpy arrays over the reals *)

Module Np.
#[local] Open Scope R_scope.

(** A two-dimensional array: its rows, and the number of columns (which
    the rows alone do not determine when there are none). *)
Record ndarray := Array2 { ncols : nat; rows : list (list R) }.

Definition nrows (a : ndarray) : nat := length (rows a).

Definition wf (a : ndarray) : Prop :=
  Forall (fun row => length row = ncols a) (rows a).

Definition has_shape (a : ndarray) (n m : nat) : Prop :=
  nrows a = n /\ ncols a = m /\ wf a.

(** [x / y] on array elements.  numpy gives [inf] or [nan] for a zero
    divisor, with a warning, and goes on; the outcome [NonFinite] ends the
    run at the division, and what numpy does with the non-finite value
    afterwards is not followed. *)
Definition fdiv (x y : R) : result R :=
  if Req_dec_T y 0 then Raise NonFinite else Ok (x / y).

(** [v / n] for a one-dimensional array and a scalar. *)
Definition vec_div (v : list R) (n : R) : result (list R) :=
  mapM (fun x => fdiv x n) v.

(** [u / d] elementwise for one-dimensional arrays of the same length. *)
Definition vec_div_elem (u d : list R) : result (list R) :=
  mapM (fun xy => fdiv (fst xy) (snd xy)) (zip u d).

(** [k * v] for a scalar and a one-dimensional array. *)
Definition vec_scale (k : R) (v : list R) : list R := map (Rmult k) v.

Definition vdot (u v : list R) : R := foldr Rplus 0 (zip_with Rmult u v).

(** [np.linalg.norm] of a one-dimensional array. *)
Definition linalg_norm (v : list R) : R := sqrt (vdot v v).

(** [v[i]] for a literal index. *)
Definition getitem {A : Type} (v : list A) (i : nat) : result A :=
  match v !! i with
  | Some x => Ok x
  | None => Raise IndexError
  end.

Definition zeros (n m : nat) : ndarray := Array2 m (replicate n (replicate m 0)).

(** [a[i, j] = v] *)
Definition setitem2 (a : ndarray) (i j : nat) (v : R) : result ndarray :=
  match rows a !! i with
  | Some row =>
      if decide (j < ncols a)%nat
      then Ok (Array2 (ncols a) (<[i := <[j := v]> row]> (rows a)))
      else Raise IndexError
  | None => Raise IndexError
  end.

Definition column (j : nat) (a : ndarray) : list R :=
  map (fun row => nth j row 0) (rows a).

(** [a.T] and [np.transpose(a)] *)
Definition transpose (a : ndarray) : ndarray :=
  Array2 (nrows a) (map (fun j => column j a) (seq 0 (ncols a))).

(** [np.expand_dims(v, 1)] *)
Definition expand_dims1 (v : list R) : ndarray :=
  Array2 1 (map (fun x => [x]) v).

(** [np.hstack((a, b))] *)
Definition hstack (a b : ndarray) : result ndarray :=
  if decide (nrows a = nrows b)
  then Ok (Array2 (ncols a + ncols b) (zip_with app (rows a) (rows b)))
  else Raise ValueError.

(** [np.dot(a, b)] for two-dimensional arrays *)
Definition dot (a b : ndarray) : result ndarray :=
  if decide (ncols a = nrows b)
  then Ok (Array2 (ncols b)
             (map (fun arow => map (fun j => vdot arow (column j b))
                                   (seq 0 (ncols b)))
                  (rows a)))
  else Raise ValueError.

(** [a / d] where [d] is one-dimensional with one entry per column of [a]:
    the division is broadcast over the rows. *)
Definition div_rows (a : ndarray) (d : list R) : result ndarray :=
  if decide (length d = ncols a)
  then rs ← mapM (fun row => vec_div_elem row d) (rows a);
       mret (Array2 (ncols a) rs)
  else Raise ValueError.

Definition eye3 : ndarray := Array2 3 [[1; 0; 0]; [0; 1; 0]; [0; 0; 1]].

(** [a[i, j]] read as a real, for stating properties of entries. *)
Definition entry (a : ndarray) (i j : nat) : R := nth j (nth i (rows a) []) 0.

(** Determinant of a 3×3 array, by expansion along the first row. *)
Definition det3 (a : ndarray) : R :=
  entry a 0 0 * (entry a 1 1 * entry a 2 2 - entry a 1 2 * entry a 2 1)
  - entry a 0 1 * (entry a 1 0 * entry a 2 2 - entry a 1 2 * entry a 2 0)
  + entry a 0 2 * (entry a 1 0 * entry a 2 1 - entry a 1 1 * entry a 2 0).

End Np.

(** ** The camera model *)

Module Camera.
Import Np.
#[local] Open Scope R_scope.

Record t := Build {
  input_size : R * R;
  nu : R;
  nv : R;
  K : ndarray
}.

(** [x / y] on Python numbers. *)
Definition py_div (x y : R) : result R :=
  if Req_dec_T y 0 then Raise ZeroDivisionError else Ok (x / y).

(** The literal [k] of [Camera.__init__] for given [fpx], [fpy], [nu], [nv]. *)
Definition base_intrinsics (fpx fpy nu nv : R) : ndarray :=
  Array2 3 [[fpx;   0; nu / 2];
            [  0; fpy; nv / 2];
            [  0;   0;      1]].

Definition scale_matrix (sx sy : R) : ndarray :=
  Array2 3 [[sx; 0; 0];
            [0; sy; 0];
            [0; 0; 1]].

(** [Camera.__init__(self, img_size, input_size)] *)
Definition init (img_size input_size : R * R) : result t :=
  let fx := 0.0176 in
  let fy := 0.0176 in
  let self_nu := 1920 in
  let self_nv := 1200 in
  let ppx := 5.86e-6 in
  let ppy := ppx in
  let fpx := fx / ppx in
  let fpy := fy / ppy in
  let k := base_intrinsics fpx fpy self_nu self_nv in
  sx ← py_div (fst input_size) (fst img_size);
  sy ← py_div (snd input_size) (snd img_size);
  let scale := scale_matrix sx sy in
  K ← dot scale k;
  mret (Build input_size self_nu self_nv K).

(** The intrinsics as the specification words them: the half sizes in [k]
    are those of the native sensor size given to the constructor. *)
Definition spec_intrinsics (native input : R * R) : result ndarray :=
  let fp := 0.0176 / 5.86e-6 in
  dot (scale_matrix (fst input / fst native) (snd input / snd native))
      (base_intrinsics fp fp (fst native) (snd native)).

End Camera.

(** ** Quaternion to rotation, and the projector *)

Module Geometry.
Import Np.
#[local] Open Scope R_scope.

(** [quat2dcm(q)] *)
Definition quat2dcm (q : list R) : result ndarray :=
  q ← vec_div q (linalg_norm q);
  q0 ← getitem q 0;
  q1 ← getitem q 1;
  q2 ← getitem q 2;
  q3 ← getitem q 3;
  let dcm := zeros 3 3 in
  dcm ← setitem2 dcm 0 0 (2 * q0 ^ 2 - 1 + 2 * q1 ^ 2);
  dcm ← setitem2 dcm 1 1 (2 * q0 ^ 2 - 1 + 2 * q2 ^ 2);
  dcm ← setitem2 dcm 2 2 (2 * q0 ^ 2 - 1 + 2 * q3 ^ 2);
  dcm ← setitem2 dcm 0 1 (2 * q1 * q2 + 2 * q0 * q3);
  dcm ← setitem2 dcm 0 2 (2 * q1 * q3 - 2 * q0 * q2);
  dcm ← setitem2 dcm 1 0 (2 * q1 * q2 - 2 * q0 * q3);
  dcm ← setitem2 dcm 1 2 (2 * q2 * q3 + 2 * q0 * q1);
  dcm ← setitem2 dcm 2 0 (2 * q1 * q3 + 2 * q0 * q2);
  dcm ← setitem2 dcm 2 1 (2 * q2 * q3 - 2 * q0 * q1);
  mret dcm.

(** The matrix of the specification, entry by entry, for normalised
    components [q0 .. q3]. *)
Definition spec_dcm (q0 q1 q2 q3 : R) : ndarray :=
  Array2 3
    [[2 * q0 ^ 2 - 1 + 2 * q1 ^ 2; 2 * q1 * q2 + 2 * q0 * q3; 2 * q1 * q3 - 2 * q0 * q2];
     [2 * q1 * q2 - 2 * q0 * q3; 2 * q0 ^ 2 - 1 + 2 * q2 ^ 2; 2 * q2 * q3 + 2 * q0 * q1];
     [2 * q1 * q3 + 2 * q0 * q2; 2 * q2 * q3 - 2 * q0 * q1; 2 * q0 ^ 2 - 1 + 2 * q3 ^ 2]].

(** [project(q, r, K, points)] *)
Definition project (q r : list R) (K points : ndarray)
  : result (list R * list R) :=
  let points_body := transpose points in
  dcm ← quat2dcm q;
  pose_mat ← hstack (transpose dcm) (expand_dims1 r);
  p_cam ← dot pose_mat points_body;
  depth ← getitem (rows p_cam) 2;
  points_camera_frame ← div_rows p_cam depth;
  points_image_plane ← dot K points_camera_frame;
  x ← getitem (rows points_image_plane) 0;
  y ← getitem (rows points_image_plane) 1;
  mret (x, y).

(** The 3×4 matrix [pose_mat] that [project] builds. *)
Definition pose_matrix (q r : list R) : result ndarray :=
  dcm ← quat2dcm q;
  hstack (transpose dcm) (expand_dims1 r).

(** The 3×N array [p_cam] that [project] builds: the points in the
    camera frame. *)
Definition camera_frame (q r : list R) (points : ndarray) : result ndarray :=
  pose_mat ← pose_matrix q r;
  dot pose_mat (transpose points).

(** The pinhole image of one homogeneous point [p] under the pose matrix
    [P], read along the row [krow] of the intrinsics. *)
Definition pixel (krow : list R) (P : ndarray) (p : list R) : R :=
  let cam i := vdot (nth i (rows P) []) p in
  vdot krow [cam 0%nat / cam 2%nat; cam 1%nat / cam 2%nat; cam 2%nat / cam 2%nat].

(** A quaternion that is not the zero vector. *)
Definition nonzero (q : list R) : Prop := Exists (fun x => x <> 0) q.


End Geometry.

(** ** Stateful code: a state and exception monad

    A computation takes the state, and returns the state it leaves behind
    together with its outcome; a raised exception keeps the writes made
    before it. *)

Module StateExn.

Definition M (S A : Type) : Type := S -> S * result A.

Definition ret {S A} (a : A) : M S A := fun s => (s, Ok a).

Definition bind {S A B} (m : M S A) (f : A -> M S B) : M S B :=
  fun s => match m s with
           | (s', Ok a) => f a s'
           | (s', Raise e) => (s', Raise e)
           end.

Definition raise {S A} (e : exn) : M S A := fun s => (s, Raise e).

(** A computation that does not touch the state. *)
Definition lift {S A} (r : result A) : M S A := fun s => (s, r).

Definition get {S} : M S S := fun s => (s, Ok s).
Definition put {S} (s : S) : M S unit := fun _ => (s, Ok tt).

(** [for i in idxs: body(i)] *)
Fixpoint for_each {S} (idxs : list nat) (body : nat -> M S unit) : M S unit :=
  match idxs with
  | [] => ret tt
  | i :: rest => bind (body i) (fun _ => for_each rest body)
  end.

End StateExn.

Declare Scope stexn_scope.
Delimit Scope stexn_scope with stexn.
Notation "x <~ m ;; k" := (StateExn.bind m (fun x => k))
  (at level 100, m at next level, right associativity) : stexn_scope.
Notation "m ;;; k" := (StateExn.bind m (fun _ => k))
  (at level 100, right associativity) : stexn_scope.

(** ** The axis rescaling helper, on arrays held in a store *)

Module Pose.
Import Np StateExn.
#[local] Open Scope R_scope.

(** Arrays are mutable objects: a reference designates one, and two
    references may designate the same one. *)
Abbreviation ref := nat (only parsing).
Abbreviation heap := (gmap nat (list R)) (only parsing).

(** [a[i]].  A reference always designates an array, so the second
    [IndexError] stands for an impossible case. *)
Definition load (a : ref) (i : nat) : M heap R :=
  fun h => match h !! a with
           | Some arr => (h, getitem arr i)
           | None => (h, Raise IndexError)
           end.

(** [a[i] = v] *)
Definition store (a : ref) (i : nat) (v : R) : M heap unit :=
  fun h => match h !! a with
           | Some arr =>
               if decide (i < length arr)%nat
               then (<[a := <[i := v]> arr]> h, Ok tt)
               else (h, Raise IndexError)
           | None => (h, Raise IndexError)
           end.

(** [a[i] = (a[i] - a[0]) * factor + a[0]] *)
Definition rescale_entry (a : ref) (i : nat) (factor : R) : M heap unit :=
  (ai <~ load a i ;;
   a0 <~ load a 0 ;;
   a0' <~ load a 0 ;;
   store a i ((ai - a0) * factor + a0'))%stexn.

(** [scalePoseVector(xa, ya, factor)] *)
Definition scalePoseVector (xa ya : ref) (factor : R) : M heap (ref * ref) :=
  (for_each (seq 1 3) (fun i =>
     rescale_entry xa i factor ;;;
     rescale_entry ya i factor) ;;;
   ret (xa, ya))%stexn.

(** The rescaled coordinates of a 4-element sequence. *)
Definition rescaled (factor : R) (p : list R) : list R :=
  match p with
  | [p0; p1; p2; p3] =>
      [p0; (p1 - p0) * factor + p0; (p2 - p0) * factor + p0;
       (p3 - p0) * factor + p0]
  | _ => p
  end.

End Pose.

(** ** Python sequences and paths *)

Module Py.

(** [l[i]] for an integer [i]: negative indices count from the end. *)
Definition index {A : Type} (l : list A) (i : Z) : result A :=
  let n := Z.of_nat (length l) in
  let j := (if decide (i < 0)%Z then i + n else i)%Z in
  if decide (0 <= j < n)%Z then Np.getitem l (Z.to_nat j) else Raise IndexError.

(** [l[:stop]] for an integer [stop]: a negative bound counts from the
    end, and bounds beyond the list are clipped. *)
Definition slice_to {A : Type} (l : list A) (stop : Z) : list A :=
  let n := Z.of_nat (length l) in
  let j := (if decide (stop < 0)%Z then Z.max 0 (stop + n) else Z.min stop n)%Z in
  take (Z.to_nat j) l.

(** The separator ['/']. *)
Definition sep : Ascii.ascii := Ascii.ascii_of_nat 47.

Definition startswith_sep (s : string) : bool :=
  match s with
  | String c _ => Ascii.eqb c sep
  | EmptyString => false
  end.

Fixpoint endswith_sep (s : string) : bool :=
  match s with
  | EmptyString => false
  | String c EmptyString => Ascii.eqb c sep
  | String _ s' => endswith_sep s'
  end.

(** One step of [posixpath.join]. *)
Definition join_step (path b : string) : string :=
  if startswith_sep b then b
  else if String.eqb path "" || endswith_sep path then path +:+ b
  else path +:+ "/" +:+ b.

(** [os.path.join(a, *p)] *)
Definition os_path_join (a : string) (p : list string) : string :=
  foldl join_step a p.

End Py.

(** ** The dataset index *)

Module Dataset.
Import Np StateExn.
#[local] Open Scope R_scope.

(** Parsed JSON, as far as the annotation files use it. *)
Inductive json :=
| JNum (x : R)
| JStr (s : string)
| JList (l : list json).

(** A JSON object, and a Python dict with string keys. *)
Abbreviation dict := (gmap string json) (only parsing).

(** [d[key]] *)
Definition dict_get (d : dict) (key : string) : result json :=
  match d !! key with
  | Some v => Ok v
  | None => Raise KeyError
  end.

(** The part of the injected transform that the dataset reads. *)
Record CropStage := { size : R * R; cx : R; cy : R; cropSize : R }.
Record Transform := { transforms : list CropStage }.

(** The file system: the parsed content of each annotation file, and the
    paths given to [open] so far.  A file of the world is one that
    [json.load] parses into a list of objects; a file that exists and does
    not parse is not represented. *)
Record world := World {
  files : gmap string (list dict);
  opened : list string
}.

(** Values of the attributes of a [SpeedDataset] object. *)
Inductive value :=
| VIds (ids : list json)
| VLabels (labels : list dict)
| VBool (b : bool)
| VStr (s : string)
| VTransform (t : option Transform)
| VArray (a : ndarray)
| VSize (s : R * R).

(** The object under construction: the attributes set so far. *)
Abbreviation attrs := (gmap string value) (only parsing).

Abbreviation state := (world * gmap string value)%type (only parsing).

(** [with open(path, 'r') as f: json.load(f)] *)
Definition load_json (path : string) : M state (list dict) :=
  fun s =>
    let w := World (files s.1) (opened s.1 ++ [path]) in
    match files s.1 !! path with
    | Some content => ((w, s.2), Ok content)
    | None => ((w, s.2), Raise FileNotFoundError)
    end.

(** [self.name = v] *)
Definition setattr (name : string) (v : value) : M state unit :=
  fun s => ((s.1, <[name := v]> s.2), Ok tt).

(** [self.name] *)
Definition getattr (name : string) : M state value :=
  fun s => match s.2 !! name with
           | Some v => (s, Ok v)
           | None => (s, Raise AttributeError)
           end.

Definition valid_splits : gset string := {[ "train"; "test"; "real_test" ]}.

Definition wireframe_vertices_const : ndarray :=
  Array2 4 [[0.37; 0.285; 0; 1]; [-0.37; 0.285; 0; 1];
            [-0.37; -0.285; 0; 1]; [0.37; -0.285; 0; 1];
            [0.37; 0.285; 0.295; 1]; [-0.37; 0.285; 0.295; 1];
            [-0.37; -0.285; 0.295; 1]; [0.37; -0.285; 0.295; 1]].

Definition axes_vertices_const : ndarray :=
  Array2 4 [[0; 0; 0; 1]; [1; 0; 0; 1]; [0; 1; 0; 1]; [0; 0; 1; 1]].

(** [{'q': label['q_vbs2tango'], 'r': label['r_Vo2To_vbs_true'],
      'bbox': label['bbox'], 'wireframe': label['wireframe']}] *)
Definition make_label (label : dict) : result dict :=
  q ← dict_get label "q_vbs2tango";
  r ← dict_get label "r_Vo2To_vbs_true";
  bbox ← dict_get label "bbox";
  wireframe ← dict_get label "wireframe";
  mret (<["q" := q]> (<["r" := r]> (<["bbox" := bbox]>
         (<["wireframe" := wireframe]> ∅)))).

(** [self.sample_ids], [self.labels] and [self.train], read back. *)
Definition get_sample_ids : M state (list json) :=
  (v <~ getattr "sample_ids" ;;
   match v with VIds ids => ret ids | _ => raise AttributeError end)%stexn.

Definition get_labels : M state (list dict) :=
  (v <~ getattr "labels" ;;
   match v with VLabels ls => ret ls | _ => raise AttributeError end)%stexn.

Definition get_train : M state bool :=
  (v <~ getattr "train" ;;
   match v with VBool b => ret b | _ => raise AttributeError end)%stexn.

(** [SpeedDataset.__init__] *)
Definition init (split speed_root annotations_root : string)
    (input_size : R * R) (split_index : option Z)
    (transform : option Transform) (sanity_check : option Z) : M state unit :=
  (if decide (split ∉ valid_splits) then raise ValueError else
   label_list <~ load_json (Py.os_path_join annotations_root [split +:+ ".json"]) ;;
   ids <~ lift (mapM (fun label => dict_get label "filename") label_list) ;;
   setattr "sample_ids" (VIds ids) ;;;
   setattr "train" (VBool (String.eqb split "train")) ;;;
   let split_idx := match split_index with None => (-1)%Z | Some k => k end in
   train <~ get_train ;;
   (if train : bool then
      labels <~ lift (mapM make_label label_list) ;;
      setattr "labels" (VLabels labels) ;;;
      match sanity_check with
      | Some i =>
          ids <~ get_sample_ids ;;
          id <~ lift (Py.index ids i) ;;
          setattr "sample_ids" (VIds [id]) ;;;
          labels <~ get_labels ;;
          label <~ lift (Py.index labels i) ;;
          setattr "labels" (VLabels [label])
      | None =>
          ids <~ get_sample_ids ;;
          setattr "sample_ids" (VIds (Py.slice_to ids split_idx)) ;;;
          labels <~ get_labels ;;
          setattr "labels" (VLabels (Py.slice_to labels split_idx))
      end
    else ret tt) ;;;
   setattr "image_root" (VStr (Py.os_path_join speed_root ["images"; split])) ;;;
   setattr "transform" (VTransform transform) ;;;
   setattr "wireframe_vertices" (VArray wireframe_vertices_const) ;;;
   setattr "axes_vertices" (VArray axes_vertices_const) ;;;
   match transform with
   | Some t =>
       stage <~ lift (getitem (transforms t) 0) ;;
       setattr "input_size" (VSize (size stage))
   | None => setattr "input_size" (VSize input_size)
   end)%stexn.

(** [SpeedDataset(...)]: a fresh object is initialised, and is handed
    to the caller only when [__init__] returns. *)
Definition construct (split speed_root annotations_root : string)
    (input_size : R * R) (split_index : option Z)
    (transform : option Transform) (sanity_check : option Z)
    (w : world) : world * result attrs :=
  match init split speed_root annotations_root input_size split_index
             transform sanity_check (w, ∅) with
  | ((w', self), Ok _) => (w', Ok self)
  | ((w', _), Raise e) => (w', Raise e)
  end.

(** [SpeedDataset.__len__] *)
Definition len (self : attrs) : result nat :=
  match self !! "sample_ids" with
  | Some (VIds ids) => Ok (length ids)
  | _ => Raise AttributeError
  end.

(** An annotation record of the train split carries all five keys. *)
Definition labelled (label : dict) : Prop :=
  is_Some (label !! "filename") /\ is_Some (label !! "q_vbs2tango") /\
  is_Some (label !! "r_Vo2To_vbs_true") /\ is_Some (label !! "bbox") /\
  is_Some (label !! "wireframe").

(** The sample id and the label that [__init__] derives from a record. *)
Definition id_of (label : dict) (id : json) : Prop :=
  label !! "filename" = Some id.

Definition label_of (label lab : dict) : Prop := make_label label = Ok lab.

(** A transform, when given, has a first stage. *)
Definition transform_ok (transform : option Transform) : Prop :=
  match transform with
  | Some t => transforms t <> []
  | None => True
  end.

End Dataset.

(** ** Concrete inputs, used to exercise the theorems *)

Module Examples.
Import Np.
#[local] Open Scope R_scope.

Definition K_example : ndarray :=
  Array2 3 [[3; 0; 128]; [0; 3; 128]; [0; 0; 1]].

Definition heap_example : gmap nat (list R) :=
  <[1%nat := [10; 11; 12; 14]]> (<[0%nat := [0; 1; 2; 3]]> ∅).

Definition record_example (name : string) : gmap string Dataset.json :=
  <["filename" := Dataset.JStr name]>
    (<["q_vbs2tango" := Dataset.JList
         [Dataset.JNum 1; Dataset.JNum 0; Dataset.JNum 0; Dataset.JNum 0]]>
       (<["r_Vo2To_vbs_true" := Dataset.JList
            [Dataset.JNum 0; Dataset.JNum 0; Dataset.JNum 10]]>
          (<["bbox" := Dataset.JList []]>
             (<["wireframe" := Dataset.JList []]> ∅)))).

Definition world_example : Dataset.world :=
  Dataset.World
    (<["train.json" :=
        [record_example "img1.jpg"; record_example "img2.jpg";
         record_example "img3.jpg"]]> ∅) [].

End Examples.

(** ** Predicates on the construction of the dataset index *)

Module DatasetExt.
Import StateExn Dataset.

(** A computation on the object under construction that leaves the file
    system, and the log of opened paths, as they are. *)
Definition keeps_world {A : Type} (m : M (world * gmap string value) A) : Prop :=
  forall s, (m s).1.1 = s.1.

(** The annotation file that [SpeedDataset.__init__] reads. *)
Definition annotation_path (annotations_root split : string) : string :=
  Py.os_path_join annotations_root [split +:+ ".json"].

(** A record that carries a file name. *)
Definition named (label : gmap string json) : Prop :=
  is_Some (label !! "filename").

End DatasetExt.

(** ** Loading the three annotation files at once *)

Module Loader.
Import Dataset.
#[local] Open Scope R_scope.

(** The exceptions of the loader: those of [exn], and [TypeError], raised
    when a value that cannot be hashed is used as a dictionary key. *)
Inductive failure :=
| Builtin (e : exn)
| TypeError.

Inductive outcome (A : Type) :=
| Done (a : A)
| Fail (e : failure).
Arguments Done {A} a.
Arguments Fail {A} e.

#[global] Instance outcome_ret : MRet outcome := fun _ a => Done a.
#[global] Instance outcome_bind : MBind outcome :=
  fun _ _ f m => match m with Done a => f a | Fail e => Fail e end.

Definition of_result {A : Type} (r : result A) : outcome A :=
  match r with
  | Ok a => Done a
  | Raise e => Fail (Builtin e)
  end.

(** Computations on the file system. *)
Definition L (A : Type) : Type := world -> world * outcome A.

Definition lbind {A B : Type} (m : L A) (f : A -> L B) : L B :=
  fun w => match m w with
           | (w', Done a) => f a w'
           | (w', Fail e) => (w', Fail e)
           end.

Definition lpure {A : Type} (o : outcome A) : L A := fun w => (w, o).

(** [with open(path, 'r') as f: json.load(f)] *)
Definition open_json (path : string) : L (list (gmap string json)) :=
  fun w =>
    let w' := World (files w) (opened w ++ [path]) in
    match files w !! path with
    | Some content => (w', Done content)
    | None => (w', Fail (Builtin FileNotFoundError))
    end.

(** The keys of the [labels] dictionary: numbers and strings can be
    hashed, lists cannot. *)
Inductive key :=
| KNum (x : R)
| KStr (s : string).

Definition hash_key (j : json) : outcome key :=
  match j with
  | JNum x => Done (KNum x)
  | JStr s => Done (KStr s)
  | JList _ => Fail TypeError
  end.

Definition key_eq_dec (a b : key) : {a = b} + {a <> b}.
Proof.
  decide equality; [apply Req_dec_T | apply String.string_dec].
Defined.

(** A Python dictionary with such keys, in insertion order. *)
Abbreviation pydict := (list (key * gmap string json)) (only parsing).

(** [d[k] = v]: an existing key keeps its place and gets the new value. *)
Fixpoint setitem (k : key) (v : gmap string json)
    (d : list (key * gmap string json)) : list (key * gmap string json) :=
  match d with
  | [] => [(k, v)]
  | (k', v') :: d' =>
      if key_eq_dec k k' then (k', v) :: d' else (k', v') :: setitem k v d'
  end.

(** [d.get(k)] *)
Fixpoint getitem (k : key) (d : list (key * gmap string json))
  : option (gmap string json) :=
  match d with
  | [] => None
  | (k', v') :: d' => if key_eq_dec k k' then Some v' else getitem k d'
  end.

(** [partitions[name].append(x)] *)
Definition append_to (partitions : gmap string (list json)) (name : string)
    (x : json) : outcome (gmap string (list json)) :=
  match partitions !! name with
  | Some l => Done (<[name := l ++ [x]]> partitions)
  | None => Fail (Builtin KeyError)
  end.

(** The body of the loop over the train annotations. *)
Definition train_step
    (acc : gmap string (list json) * list (key * gmap string json))
    (image_ann : gmap string json)
  : outcome (gmap string (list json) * list (key * gmap string json)) :=
  filename ← of_result (dict_get image_ann "filename");
  partitions ← append_to acc.1 "train" filename;
  label ← of_result (make_label image_ann);
  target ← of_result (dict_get image_ann "filename");
  k ← hash_key target;
  mret (partitions, setitem k label acc.2).

(** The body of the loops over the test and real test annotations. *)
Definition test_step (name : string) (partitions : gmap string (list json))
    (image : gmap string json) : outcome (gmap string (list json)) :=
  filename ← of_result (dict_get image "filename");
  append_to partitions name filename.

(** [for x in l: acc = body(acc, x)] *)
Fixpoint for_fold {A B : Type} (body : A -> B -> outcome A) (acc : A)
    (l : list B) : outcome A :=
  match l with
  | [] => Done acc
  | x :: l' => acc' ← body acc x; for_fold body acc' l'
  end.

(** [process_json_dataset(root_dir)] *)
Definition process_json_dataset (root_dir : string)
  : L (gmap string (list json) * list (key * gmap string json)) :=
  lbind (open_json (Py.os_path_join root_dir ["train.json"]))
    (fun train_images_labels =>
  lbind (open_json (Py.os_path_join root_dir ["test.json"]))
    (fun test_image_list =>
  lbind (open_json (Py.os_path_join root_dir ["real_test.json"]))
    (fun real_test_image_list =>
  lpure (
    let partitions : gmap string (list json) :=
      <["test" := []]> (<["train" := []]> (<["real_test" := []]> ∅)) in
    let labels : list (key * gmap string json) := [] in
    acc ← for_fold train_step (partitions, labels) train_images_labels;
    partitions ← for_fold (test_step "test") acc.1 test_image_list;
    partitions ← for_fold (test_step "real_test") partitions real_test_image_list;
    mret (partitions, acc.2))))).

(** The dictionary after [d[k] = v] for each pair of [kvs], in order. *)
Definition store_all (d : list (key * gmap string json))
    (kvs : list (key * gmap string json)) : list (key * gmap string json) :=
  foldl (fun d kv => setitem kv.1 kv.2 d) d kvs.

(** The three paths that the loader opens. *)
Definition train_path (root_dir : string) : string :=
  Py.os_path_join root_dir ["train.json"].
Definition test_path (root_dir : string) : string :=
  Py.os_path_join root_dir ["test.json"].
Definition real_test_path (root_dir : string) : string :=
  Py.os_path_join root_dir ["real_test.json"].

(** A train record whose file name can be a dictionary key. *)
Definition keyed (label : gmap string json) : Prop :=
  exists id k, label !! "filename" = Some id /\ hash_key id = Done k.

(** The key under which a train record is stored. *)
Definition key_of (label : gmap string json) (k : key) : Prop :=
  exists id, label !! "filename" = Some id /\ hash_key id = Done k.

End Loader.

(** ** Further concrete inputs *)

Module MoreExamples.
Import Dataset.

Definition test_world_example : world :=
  World (<["ann/test.json" :=
            [<["filename" := JStr "img7.jpg"]> ∅;
             <["filename" := JStr "img8.jpg"]> ∅]]> ∅) [].

(** A train file whose second record has no label. *)
Definition broken_world_example : world :=
  World (<["train.json" :=
            [Examples.record_example "img1.jpg";
             <["filename" := JStr "img2.jpg"]> ∅]]> ∅) [].

(** A root directory with the three annotation files; two train records
    share a file name. *)
Definition full_world_example : world :=
  World (<["real_test.json" := [<["filename" := JStr "real1.jpg"]> ∅]]>
           (<["test.json" := [<["filename" := JStr "img7.jpg"]> ∅]]>
              (<["train.json" :=
                  [Examples.record_example "img1.jpg";
                   Examples.record_example "img2.jpg";
                   Examples.record_example "img1.jpg"]]> ∅))) [].

End MoreExamples.

(** ** The arithmetic of the program: binary64

    Python floats and numpy's [float64] are IEEE-754 binary64 numbers,
    rounded to nearest after every operation.  [quat2dcm] and
    [scalePoseVector] are transcribed here a second time, operation for
    operation and in the order of the source, over binary64.  A division
    by zero gives [inf] or [nan] and the run goes on, as in numpy. *)

Module Binary64.
Import StateExn.
#[local] Open Scope float_scope.

(** [k * v] for a scalar and a one-dimensional array. *)
Definition vec_scale (k : float) (v : list float) : list float :=
  map (PrimFloat.mul k) v.

(** [v / n] for a one-dimensional array and a scalar. *)
Definition vec_div (v : list float) (n : float) : list float :=
  map (fun x => x / n) v.

(** [u.dot(v)], the products added from the left. *)
Definition vdot (u v : list float) : float :=
  foldl PrimFloat.add 0 (zip_with PrimFloat.mul u v).

(** [np.linalg.norm] of a one-dimensional array: [sqrt(v.dot(v))]. *)
Definition linalg_norm (v : list float) : float := PrimFloat.sqrt (vdot v v).

(** [x ** 2], taken as the rounded product [x * x]. *)
Definition square (x : float) : float := x * x.

(** [quat2dcm(q)]; the result is the array [dcm] after its nine entries
    have been assigned, given by rows. *)
Definition quat2dcm (q : list float) : result (list (list float)) :=
  let q := vec_div q (linalg_norm q) in
  q0 ← Np.getitem q 0;
  q1 ← Np.getitem q 1;
  q2 ← Np.getitem q 2;
  q3 ← Np.getitem q 3;
  mret [[2 * square q0 - 1 + 2 * square q1;
         2 * q1 * q2 + 2 * q0 * q3;
         2 * q1 * q3 - 2 * q0 * q2];
        [2 * q1 * q2 - 2 * q0 * q3;
         2 * square q0 - 1 + 2 * square q2;
         2 * q2 * q3 + 2 * q0 * q1];
        [2 * q1 * q3 + 2 * q0 * q2;
         2 * q2 * q3 - 2 * q0 * q1;
         2 * square q0 - 1 + 2 * square q3]].

(** [dcm[i, j]], for stating properties of entries. *)
Definition entry (dcm : list (list float)) (i j : nat) : float :=
  nth j (nth i dcm []) nan.

(** Mutable arrays of binary64 numbers in a store, as in [Pose]. *)
Abbreviation ref := nat (only parsing).
Abbreviation heap := (gmap nat (list float)) (only parsing).

(** [a[i]] *)
Definition load (a : ref) (i : nat) : M heap float :=
  fun h => match h !! a with
           | Some arr => (h, Np.getitem arr i)
           | None => (h, Raise IndexError)
           end.

(** [a[i] = v] *)
Definition store (a : ref) (i : nat) (v : float) : M heap unit :=
  fun h => match h !! a with
           | Some arr =>
               if decide (i < length arr)%nat
               then (<[a := <[i := v]> arr]> h, Ok tt)
               else (h, Raise IndexError)
           | None => (h, Raise IndexError)
           end.

(** [a[i] = (a[i] - a[0]) * factor + a[0]] *)
Definition rescale_entry (a : ref) (i : nat) (factor : float) : M heap unit :=
  (ai <~ load a i ;;
   a0 <~ load a 0 ;;
   a0' <~ load a 0 ;;
   store a i ((ai - a0) * factor + a0'))%stexn.

(** [scalePoseVector(xa, ya, factor)] *)
Definition scalePoseVector (xa ya : ref) (factor : float) : M heap (ref * ref) :=
  (for_each (seq 1 3) (fun i =>
     rescale_entry xa i factor ;;;
     rescale_entry ya i factor) ;;;
   ret (xa, ya))%stexn.

(** The binary64 number nearest to one tenth, the value of the Python
    literal [0.1]. *)
Definition tenth : float := 1 / 10.

(** Two arrays of four coordinates: origin first, then three tips. *)
Definition heap_example : gmap nat (list float) :=
  <[1%nat := [1; 2; 3; 4]]> (<[0%nat := [1; tenth; 2; 3]]> ∅).

End Binary64.

(** * Properties *)

Import Np StateExn Geometry Pose Examples.
#[local] Open Scope R_scope.

(** ** Outcomes and lists *)

Lemma fdiv_ok x y : y <> 0 -> fdiv x y = Ok (x / y).
Proof. intros Hy. unfold fdiv. destruct (Req_dec_T y 0); [contradiction | reflexivity]. Qed.

Lemma vec_div_ok v n : n <> 0 -> vec_div v n = Ok (map (fun x => x / n) v).
Proof.
  intros Hn. unfold vec_div. induction v as [|x v IH]; simpl; [reflexivity|].
  rewrite fdiv_ok by assumption. simpl. rewrite IH. reflexivity.
Qed.

Lemma quat2dcm_explicit a b c d :
  let n := linalg_norm [a; b; c; d] in
  n <> 0 -> quat2dcm [a; b; c; d] = Ok (spec_dcm (a / n) (b / n) (c / n) (d / n)).
Proof.
  intros n Hn. unfold quat2dcm. fold n. rewrite vec_div_ok by assumption.
  reflexivity.
Qed.

Lemma length4_inv {A} (l : list A) : length l = 4%nat -> exists a b c d, l = [a; b; c; d].
Proof.
  destruct l as [|a [|b [|c [|d [|e l]]]]]; simpl; intros H; try discriminate.
  eauto.
Qed.

(** C2.  For every 4-element vector [q] of non-zero Euclidean norm,
    [quat2dcm] divides [q] by its norm and returns the 3×3 matrix whose
    entries are those of the specification, in terms of the normalised
    components [q0 .. q3]. *)
Theorem quat2dcm_entries (q : list R) :
  length q = 4%nat -> linalg_norm q <> 0 ->
  let n := linalg_norm q in
  let q0 := nth 0 q 0 / n in
  let q1 := nth 1 q 0 / n in
  let q2 := nth 2 q 0 / n in
  let q3 := nth 3 q 0 / n in
  vec_div q n = Ok [q0; q1; q2; q3] /\
  quat2dcm q = Ok (Array2 3
    [[2 * q0 ^ 2 - 1 + 2 * q1 ^ 2; 2 * q1 * q2 + 2 * q0 * q3; 2 * q1 * q3 - 2 * q0 * q2];
     [2 * q1 * q2 - 2 * q0 * q3; 2 * q0 ^ 2 - 1 + 2 * q2 ^ 2; 2 * q2 * q3 + 2 * q0 * q1];
     [2 * q1 * q3 + 2 * q0 * q2; 2 * q2 * q3 - 2 * q0 * q1; 2 * q0 ^ 2 - 1 + 2 * q3 ^ 2]]).
Proof.
  intros Hlen Hn.
  destruct (length4_inv q Hlen) as (a & b & c & d & ->).
  cbn [nth]. split.
  - exact (vec_div_ok [a; b; c; d] _ Hn).
  - exact (quat2dcm_explicit a b c d Hn).
Qed.

Lemma vdot4 a b c d a' b' c' d' :
  vdot [a; b; c; d] [a'; b'; c'; d'] = a * a' + b * b' + c * c' + d * d'.
Proof. unfold vdot. cbn [zip_with foldr]. ring. Qed.

Lemma vdot3 a b c a' b' c' :
  vdot [a; b; c] [a'; b'; c'] = a * a' + b * b' + c * c'.
Proof. unfold vdot. cbn [zip_with foldr]. ring. Qed.

Lemma vdot_self_nonneg v : 0 <= vdot v v.
Proof.
  unfold vdot. induction v as [|x v IH]; cbn [zip_with foldr]; [lra|].
  pose proof (Rle_0_sqr x) as Hx. unfold Rsqr in Hx. lra.
Qed.

Lemma norm_sqr v : linalg_norm v * linalg_norm v = vdot v v.
Proof. unfold linalg_norm. apply sqrt_sqrt, vdot_self_nonneg. Qed.

Lemma unit_normalised a b c d :
  let n := linalg_norm [a; b; c; d] in
  n <> 0 -> (a / n) ^ 2 + (b / n) ^ 2 + (c / n) ^ 2 + (d / n) ^ 2 = 1.
Proof.
  intros n Hn. pose proof (norm_sqr [a; b; c; d]) as Hs. fold n in Hs.
  rewrite vdot4 in Hs.
  replace ((a / n) ^ 2 + (b / n) ^ 2 + (c / n) ^ 2 + (d / n) ^ 2)
    with ((a * a + b * b + c * c + d * d) / (n * n)) by (field; exact Hn).
  rewrite <- Hs. field. exact Hn.
Qed.

Lemma spec_dcm_homogeneous q0 q1 q2 q3 :
  q0 ^ 2 + q1 ^ 2 + q2 ^ 2 + q3 ^ 2 = 1 ->
  spec_dcm q0 q1 q2 q3 =
  Array2 3
    [[q0 ^ 2 + q1 ^ 2 - q2 ^ 2 - q3 ^ 2; 2 * q1 * q2 + 2 * q0 * q3; 2 * q1 * q3 - 2 * q0 * q2];
     [2 * q1 * q2 - 2 * q0 * q3; q0 ^ 2 - q1 ^ 2 + q2 ^ 2 - q3 ^ 2; 2 * q2 * q3 + 2 * q0 * q1];
     [2 * q1 * q3 + 2 * q0 * q2; 2 * q2 * q3 - 2 * q0 * q1; q0 ^ 2 - q1 ^ 2 - q2 ^ 2 + q3 ^ 2]].
Proof.
  intros H. unfold spec_dcm.
  replace (2 * q0 ^ 2 - 1 + 2 * q1 ^ 2) with (q0 ^ 2 + q1 ^ 2 - q2 ^ 2 - q3 ^ 2) by lra.
  replace (2 * q0 ^ 2 - 1 + 2 * q2 ^ 2) with (q0 ^ 2 - q1 ^ 2 + q2 ^ 2 - q3 ^ 2) by lra.
  replace (2 * q0 ^ 2 - 1 + 2 * q3 ^ 2) with (q0 ^ 2 - q1 ^ 2 - q2 ^ 2 + q3 ^ 2) by lra.
  reflexivity.
Qed.

Lemma spec_dcm_orthonormal q0 q1 q2 q3 :
  q0 ^ 2 + q1 ^ 2 + q2 ^ 2 + q3 ^ 2 = 1 ->
  dot (spec_dcm q0 q1 q2 q3) (transpose (spec_dcm q0 q1 q2 q3)) = Ok eye3.
Proof.
  intros H. rewrite (spec_dcm_homogeneous _ _ _ _ H).
  unfold dot, transpose, column, nrows, eye3.
  cbn [ncols rows length seq map nth].
  rewrite decide_True by reflexivity.
  rewrite !vdot3.
  assert (Hsq : (q0 ^ 2 + q1 ^ 2 + q2 ^ 2 + q3 ^ 2) ^ 2 = 1) by (rewrite H; ring).
  do 2 f_equal.
  repeat (f_equal; try (ring || (rewrite <- Hsq; ring))).
Qed.

Lemma spec_dcm_det q0 q1 q2 q3 :
  q0 ^ 2 + q1 ^ 2 + q2 ^ 2 + q3 ^ 2 = 1 ->
  det3 (spec_dcm q0 q1 q2 q3) = 1.
Proof.
  intros H. rewrite (spec_dcm_homogeneous _ _ _ _ H).
  unfold det3, entry. cbn [rows nth].
  assert (Hc : (q0 ^ 2 + q1 ^ 2 + q2 ^ 2 + q3 ^ 2) ^ 3 = 1) by (rewrite H; ring).
  rewrite <- Hc. ring.
Qed.

Section ListFacts.
Context {A B : Type}.

Lemma map_seq_nth (f : A -> B) (l : list A) (d : A) :
  map (fun i => f (nth i l d)) (seq 0 (length l)) = map f l.
Proof.
  induction l as [|x l IH]; [reflexivity|].
  cbn [length seq map nth]. f_equal.
  rewrite <- seq_shift, map_map. exact IH.
Qed.

Lemma map_seq_nth_ext (h : nat -> B) (f : A -> B) (l : list A) (d : A) :
  (forall j, (j < length l)%nat -> h j = f (nth j l d)) ->
  map h (seq 0 (length l)) = map f l.
Proof.
  intros Hh. rewrite <- (map_seq_nth f l d).
  apply map_ext_in. intros j Hj. apply in_seq in Hj. apply Hh. lia.
Qed.

Lemma nth_map_lt (f : A -> B) (l : list A) (j : nat) (d : A) (d' : B) :
  (j < length l)%nat -> nth j (map f l) d' = f (nth j l d).
Proof.
  intros Hj. rewrite (nth_indep _ d' (f d)) by (rewrite length_map; exact Hj).
  apply map_nth.
Qed.
End ListFacts.

Lemma seq_nth_self (l : list R) : map (fun i => nth i l 0) (seq 0 (length l)) = l.
Proof. rewrite (map_seq_nth (fun x => x) l 0). apply map_id. Qed.

Lemma column_transpose (a : ndarray) (j : nat) :
  wf a -> (j < nrows a)%nat -> column j (transpose a) = nth j (rows a) [].
Proof.
  intros Hwf Hj. unfold column, transpose, nrows in *. cbn [rows].
  rewrite map_map.
  assert (Hlen : length (nth j (rows a) []) = ncols a).
  { unfold wf in Hwf. rewrite Forall_forall in Hwf. apply Hwf.
    apply list_elem_of_In, nth_In, Hj. }
  rewrite <- Hlen.
  rewrite <- (seq_nth_self (nth j (rows a) [])) at 2.
  apply map_ext. intros i.
  apply (nth_map_lt (fun row => nth i row 0) (rows a) j [] 0 Hj).
Qed.

Lemma dot_transpose (P pts : ndarray) :
  wf pts -> ncols P = ncols pts ->
  dot P (transpose pts) =
  Ok (Array2 (nrows pts)
        (map (fun prow => map (fun p => vdot prow p) (rows pts)) (rows P))).
Proof.
  intros Hwf Hc. unfold dot.
  assert (Hn : nrows (transpose pts) = ncols pts).
  { unfold nrows, transpose. cbn [rows]. rewrite length_map. apply length_seq. }
  rewrite decide_True by congruence.
  change (ncols (transpose pts)) with (nrows pts).
  do 2 f_equal. apply map_ext. intros prow.
  unfold nrows. apply (map_seq_nth_ext _ _ _ []).
  intros j Hj. f_equal. apply column_transpose; assumption.
Qed.

Lemma mapM_cons {A B} (f : A -> result B) (x : A) (l : list A) :
  mapM f (x :: l) = y ← f x; k ← mapM f l; mret (y :: k).
Proof. reflexivity. Qed.

Lemma vec_div_elem_ok {A} (f g : A -> R) (l : list A) :
  Forall (fun p => g p <> 0) l ->
  vec_div_elem (map f l) (map g l) = Ok (map (fun p => f p / g p) l).
Proof.
  unfold vec_div_elem. induction 1 as [|p l Hp _ IH]; [reflexivity|].
  cbn [map zip_with]. rewrite mapM_cons, IH. cbn [fst snd].
  rewrite fdiv_ok by exact Hp. reflexivity.
Qed.

Lemma bind_Ok {A B} (a : A) (f : A -> result B) : (Ok a ≫= f) = f a.
Proof. reflexivity. Qed.

Lemma pose_matrix_explicit a b c d r0 r1 r2 :
  let n := linalg_norm [a; b; c; d] in
  let D := spec_dcm (a / n) (b / n) (c / n) (d / n) in
  n <> 0 ->
  pose_matrix [a; b; c; d] [r0; r1; r2] =
  Ok (Array2 4 [[entry D 0 0; entry D 1 0; entry D 2 0; r0];
                [entry D 0 1; entry D 1 1; entry D 2 1; r1];
                [entry D 0 2; entry D 1 2; entry D 2 2; r2]]).
Proof.
  intros n D Hn. unfold pose_matrix.
  rewrite (quat2dcm_explicit a b c d Hn). reflexivity.
Qed.

Lemma project_core q r K pts P P0 P1 P2 k0 k1 krest :
  pose_matrix q r = Ok P -> ncols P = 4%nat -> rows P = [P0; P1; P2] ->
  ncols K = 3%nat -> rows K = k0 :: k1 :: krest ->
  wf pts -> ncols pts = 4%nat ->
  Forall (fun p => vdot P2 p <> 0) (rows pts) ->
  project q r K pts =
  Ok (map (pixel k0 P) (rows pts), map (pixel k1 P) (rows pts)).
Proof.
  intros Hpose HcP HrP HcK HrK Hwf Hc Hdepth.
  unfold project, pose_matrix in *.
  destruct (quat2dcm q) as [D|e]; [|discriminate].
  cbn [mbind result_bind] in Hpose. rewrite bind_Ok, Hpose, bind_Ok.
  rewrite dot_transpose by (assumption || congruence).
  rewrite bind_Ok, HrP. cbn [rows map getitem lookup list_lookup].
  rewrite bind_Ok. unfold div_rows. cbn [ncols rows].
  rewrite decide_True by (rewrite length_map; reflexivity).
  rewrite !mapM_cons.
  rewrite !(vec_div_elem_ok _ (vdot P2) (rows pts) Hdepth).
  cbn [mapM mbind result_bind mret result_ret].
  unfold dot. cbn [ncols rows nrows length].
  rewrite decide_True by exact HcK.
  rewrite HrK. cbn [map getitem lookup list_lookup mbind result_bind mret result_ret].
  unfold nrows.
  assert (Hpix : forall krow,
    map (fun j => vdot krow (column j
           (Array2 (length (rows pts))
              [map (fun p => vdot P0 p / vdot P2 p) (rows pts);
               map (fun p => vdot P1 p / vdot P2 p) (rows pts);
               map (fun p => vdot P2 p / vdot P2 p) (rows pts)])))
        (seq 0 (length (rows pts))) = map (pixel krow P) (rows pts)).
  { intros krow. apply (map_seq_nth_ext _ _ _ []). intros j Hj.
    unfold pixel, column. rewrite HrP. cbn [rows map nth].
    rewrite !(nth_map_lt _ (rows pts) j [] 0 Hj). reflexivity. }
  rewrite !Hpix. reflexivity.
Qed.

Lemma vdot_self_pos v : nonzero v -> 0 < vdot v v.
Proof.
  unfold nonzero, vdot. induction 1 as [x v Hx | x v _ IH]; cbn [zip_with foldr].
  - pose proof (vdot_self_nonneg v) as Hv. unfold vdot in Hv. nra.
  - nra.
Qed.

Lemma norm_nonzero v : nonzero v -> linalg_norm v <> 0.
Proof.
  intros Hv. apply Rgt_not_eq, sqrt_lt_R0, vdot_self_pos, Hv.
Qed.

Lemma vdot_scale k v : vdot (vec_scale k v) (vec_scale k v) = k * k * vdot v v.
Proof.
  unfold vdot, vec_scale. induction v as [|x v IH]; cbn [map zip_with foldr]; [ring|].
  rewrite IH. ring.
Qed.

Lemma norm_scale k v : 0 < k -> linalg_norm (vec_scale k v) = k * linalg_norm v.
Proof.
  intros Hk. unfold linalg_norm. rewrite vdot_scale.
  rewrite sqrt_mult by (try apply vdot_self_nonneg; nra).
  rewrite sqrt_square by lra. reflexivity.
Qed.

Lemma vec_div_scale k v :
  0 < k -> linalg_norm v <> 0 ->
  vec_div (vec_scale k v) (linalg_norm (vec_scale k v)) = vec_div v (linalg_norm v).
Proof.
  intros Hk Hn. rewrite norm_scale by exact Hk.
  rewrite !vec_div_ok by (try apply Rmult_integral_contrapositive_currified; lra).
  f_equal. unfold vec_scale. rewrite map_map. apply map_ext.
  intros x. field. split; lra.
Qed.

(** C3.  For every non-zero 4-element quaternion [q], the matrix [R]
    returned by [quat2dcm] satisfies [R · Rᵗ = Identity] and [det R = 1],
    over the reals. *)
Theorem quat2dcm_proper_rotation (q : list R) :
  length q = 4%nat -> nonzero q ->
  exists Rm, quat2dcm q = Ok Rm /\
             dot Rm (transpose Rm) = Ok eye3 /\
             det3 Rm = 1.
Proof.
  intros Hlen Hq. pose proof (norm_nonzero q Hq) as Hn.
  destruct (length4_inv q Hlen) as (a & b & c & d & ->).
  pose proof (unit_normalised a b c d Hn) as Hunit.
  eexists. split; [exact (quat2dcm_explicit a b c d Hn)|]. split.
  - apply spec_dcm_orthonormal, Hunit.
  - apply spec_dcm_det, Hunit.
Qed.

(** C4 (amended).  Over exact real arithmetic [quat2dcm] is scale
    invariant: for every non-zero 4-element quaternion [q] and every
    positive scalar [k], [quat2dcm (k · q) = quat2dcm q] (and both are
    matrices). *)
Theorem quat2dcm_scale_invariant (q : list R) (k : R) :
  length q = 4%nat -> nonzero q -> 0 < k ->
  quat2dcm (vec_scale k q) = quat2dcm q /\ exists Rm, quat2dcm q = Ok Rm.
Proof.
  intros Hlen Hq Hk. pose proof (norm_nonzero q Hq) as Hn. split.
  - unfold quat2dcm. rewrite (vec_div_scale k q Hk Hn). reflexivity.
  - destruct (length4_inv q Hlen) as (a & b & c & d & ->).
    eexists. exact (quat2dcm_explicit a b c d Hn).
Qed.

(** The equality is one of exact arithmetic only.  In binary64, the
    arithmetic of the program, [quat2dcm] of [[1, 2, 3, 4]] and of
    [3 · [1, 2, 3, 4]] are two different matrices: entry [0, 1], which is
    made of products and one sum, is smaller in the first.  The squares
    1, 4, 9, 16 and 9, 36, 81, 144 and their sums 30 and 270 are whole
    numbers, exact in binary64 in whatever order they are added; the two
    norms [sqrt 30] and [sqrt 270] are rounded, and so are the quotients. *)
Lemma quat2dcm_scale_counterexample :
  Binary64.quat2dcm (Binary64.vec_scale 3 [1; 2; 3; 4]%float) <>
  Binary64.quat2dcm [1; 2; 3; 4]%float /\
  exists a b,
    Binary64.quat2dcm [1; 2; 3; 4]%float = Ok a /\
    Binary64.quat2dcm (Binary64.vec_scale 3 [1; 2; 3; 4]%float) = Ok b /\
    PrimFloat.ltb (Binary64.entry a 0 1) (Binary64.entry b 0 1) = true.
Proof.
  split.
  - intros Heq.
    pose (e01 := fun r : result (list (list float)) =>
                   match r with
                   | Ok dcm => Binary64.entry dcm 0 1
                   | Raise _ => nan
                   end).
    apply (f_equal (fun r => PrimFloat.ltb
                               (e01 (Binary64.quat2dcm [1; 2; 3; 4]%float))
                               (e01 r))) in Heq.
    vm_compute in Heq. discriminate Heq.
  - eexists _, _. split; [reflexivity|]. split; [reflexivity|].
    vm_compute. reflexivity.
Qed.

Lemma shape33_inv K :
  has_shape K 3 3 ->
  exists k00 k01 k02 k10 k11 k12 k20 k21 k22,
    K = Array2 3 [[k00; k01; k02]; [k10; k11; k12]; [k20; k21; k22]].
Proof.
  destruct K as [m rs]. unfold has_shape, nrows, wf. cbn [ncols rows].
  intros (Hn & -> & Hwf).
  destruct rs as [|x [|y [|z [|? ?]]]]; try discriminate.
  inversion Hwf as [|? ? Hx Hwf1]; subst.
  inversion Hwf1 as [|? ? Hy Hwf2]; subst.
  inversion Hwf2 as [|? ? Hz _]; subst.
  destruct x as [|? [|? [|? [|? ?]]]]; try discriminate.
  destruct y as [|? [|? [|? [|? ?]]]]; try discriminate.
  destruct z as [|? [|? [|? [|? ?]]]]; try discriminate.
  eauto 12.
Qed.

Lemma length3_inv {A} (l : list A) : length l = 3%nat -> exists a b c, l = [a; b; c].
Proof.
  destruct l as [|a [|b [|c [|e l]]]]; simpl; intros H; try discriminate.
  eauto.
Qed.


Lemma norm_identity : linalg_norm [1; 0; 0; 0] = 1.
Proof.
  unfold linalg_norm. rewrite vdot4.
  replace (1 * 1 + 0 * 0 + 0 * 0 + 0 * 0) with 1 by ring. apply sqrt_1.
Qed.

(** The zero vector has no direction: its normalisation is not finite. *)
Lemma quat2dcm_zero : quat2dcm [0; 0; 0; 0] = Raise NonFinite.
Proof.
  assert (Hz : linalg_norm [0; 0; 0; 0] = 0).
  { unfold linalg_norm. rewrite vdot4.
    replace (0 * 0 + 0 * 0 + 0 * 0 + 0 * 0) with 0 by ring. apply sqrt_0. }
  assert (Hdiv : vec_div [0; 0; 0; 0] 0 = Raise NonFinite).
  { assert (Hf : fdiv 0 0 = Raise NonFinite).
    { unfold fdiv. destruct (Req_dec_T 0 0); [reflexivity | contradiction]. }
    unfold vec_div. rewrite mapM_cons, Hf. reflexivity. }
  unfold quat2dcm. rewrite Hz, Hdiv. reflexivity.
Qed.

(** C6.  For every [d > 0] and every 3×3 matrix [K] whose last row is
    [[0, 0, 1]], projecting the single point [(0, 0, 0, 1)] with the
    identity quaternion and the translation [[0, 0, d]] yields exactly the
    principal point [(K[0][2], K[1][2])], whatever [d]. *)
Theorem project_identity_principal_point (d : R) (K : ndarray) :
  0 < d -> has_shape K 3 3 -> rows K !! 2%nat = Some [0; 0; 1] ->
  project [1; 0; 0; 0] [0; 0; d] K (Array2 4 [[0; 0; 0; 1]]) =
  Ok ([entry K 0 2], [entry K 1 2]).
Proof.
  intros Hd HK Hrow.
  destruct (shape33_inv K HK) as (k00 & k01 & k02 & k10 & k11 & k12 & k20 & k21 & k22 & ->).
  assert (Hn : linalg_norm [1; 0; 0; 0] <> 0) by (rewrite norm_identity; lra).
  pose proof (pose_matrix_explicit 1 0 0 0 0 0 d Hn) as Hpose.
  cbv zeta in Hpose. rewrite norm_identity in Hpose.
  unfold spec_dcm, entry in Hpose. cbn [rows nth] in Hpose.
  erewrite project_core; try exact Hpose; try reflexivity.
  - unfold pixel, entry. cbn [rows map nth]. rewrite !vdot4, !vdot3.
    do 2 f_equal; f_equal; field; lra.
  - unfold wf. cbn [rows ncols]. repeat constructor.
  - cbn [rows]. constructor; [|constructor]. rewrite vdot4. 
    replace (1 / 1) with 1 by field. nra.
Qed.

(** ** The camera model *)

Section CameraFacts.
Import Camera.

Lemma py_div_ok x y : y <> 0 -> py_div x y = Ok (x / y).
Proof.
  intros Hy. unfold py_div.
  destruct (Req_dec_T y 0); [contradiction | reflexivity].
Qed.

Lemma py_div_zero x : py_div x 0 = Raise ZeroDivisionError.
Proof.
  unfold py_div. destruct (Req_dec_T 0 0); [reflexivity | contradiction].
Qed.

Lemma dot_scale_base sx sy fpx fpy u v :
  dot (scale_matrix sx sy) (base_intrinsics fpx fpy u v) =
  Ok (Array2 3 [[sx * fpx; 0; sx * (u / 2)];
                [0; sy * fpy; sy * (v / 2)];
                [0; 0; 1]]).
Proof.
  unfold dot, scale_matrix, base_intrinsics, column, nrows.
  cbn [ncols rows length seq map nth].
  rewrite decide_True by reflexivity. rewrite !vdot3.
  do 2 f_equal. repeat (f_equal; try ring).
Qed.

Lemma Camera_init_run (native_w native_h input_w input_h : R) :
  native_w <> 0 -> native_h <> 0 ->
  init (native_w, native_h) (input_w, input_h) =
  Ok (Build (input_w, input_h) 1920 1200
        (Array2 3
           [[input_w / native_w * (0.0176 / 5.86e-6); 0;
             input_w / native_w * (1920 / 2)];
            [0; input_h / native_h * (0.0176 / 5.86e-6);
             input_h / native_h * (1200 / 2)];
            [0; 0; 1]])).
Proof.
  intros Hw Hh. unfold init. cbn [fst snd].
  rewrite (py_div_ok _ _ Hw), bind_Ok, (py_div_ok _ _ Hh), bind_Ok.
  rewrite dot_scale_base, bind_Ok. reflexivity.
Qed.

(** C1 (amended).  For every non-zero native size [(native_w, native_h)]
    and every input size [(input_w, input_h)] given to the constructor,
    the camera is built and its intrinsics are [scale · k], where
    [scale = diag(input_w/native_w, input_h/native_h, 1)] and
    [k = [[fp, 0, nu/2], [0, fp, nv/2], [0, 0, 1]]] with
    [fp = 0.0176 / 5.86e-6] and [(nu, nv) = (1920, 1200)], the constants the
    constructor stores in the camera whatever native size it is given. *)
Theorem Camera_init_intrinsics (native_w native_h input_w input_h : R) :
  native_w <> 0 -> native_h <> 0 ->
  let fp := 0.0176 / 5.86e-6 in
  let scale := scale_matrix (input_w / native_w) (input_h / native_h) in
  let k := base_intrinsics fp fp 1920 1200 in
  exists cam,
    init (native_w, native_h) (input_w, input_h) = Ok cam /\
    dot scale k = Ok (K cam) /\
    K cam = Array2 3 [[input_w / native_w * fp; 0; input_w / native_w * (1920 / 2)];
                      [0; input_h / native_h * fp; input_h / native_h * (1200 / 2)];
                      [0; 0; 1]] /\
    nu cam = 1920 /\ nv cam = 1200 /\ input_size cam = (input_w, input_h).
Proof.
  intros Hw Hh fp scale k. subst scale k fp.
  eexists. split; [apply Camera_init_run; assumption|].
  cbn [K nu nv input_size]. rewrite dot_scale_base.
  repeat split; reflexivity.
Qed.

Lemma Camera_init_intrinsics_witness :
  exists cam, init (1920, 1200) (256, 256) = Ok cam /\
              nu cam = 1920 /\ nv cam = 1200 /\
              entry (K cam) 0 2 = 256 / 1920 * (1920 / 2).
Proof.
  destruct (Camera_init_intrinsics 1920 1200 256 256)
    as (cam & H1 & _ & HK & H2 & H3 & _); [lra | lra |].
  exists cam. rewrite HK. repeat split; assumption.
Defined.

(** With the half sizes of [k] taken from the native size given to the
    constructor, as C1 is worded, the intrinsics differ from those the
    constructor computes for a 960×600 native size: the principal point
    would be (128, 128), and the constructor yields (256, 256). *)
Lemma Camera_native_size_counterexample :
  exists cam, init (960, 600) (256, 256) = Ok cam /\
              spec_intrinsics (960, 600) (256, 256) <> Ok (K cam).
Proof.
  eexists. split; [apply Camera_init_run; lra|].
  unfold spec_intrinsics. cbn [fst snd K]. rewrite dot_scale_base.
  intros Heq. injection Heq as Heq _. lra.
Qed.

(** A zero native width makes the constructor raise. *)
Lemma Camera_init_zero_width (native_h input_w input_h : R) :
  init (0, native_h) (input_w, input_h) = Raise ZeroDivisionError.
Proof. unfold init. cbn [fst snd]. rewrite py_div_zero. reflexivity. Qed.

End CameraFacts.

(** ** The axis rescaling helper *)

Lemma bind_run {S A B} (m : M S A) (f : A -> M S B) (s s' : S) (a : A) :
  m s = (s', Ok a) -> bind m f s = f a s'.
Proof. intros H. unfold bind. rewrite H. reflexivity. Qed.

Lemma bind_raise {S A B} (m : M S A) (f : A -> M S B) (s s' : S) (e : exn) :
  m s = (s', Raise e) -> bind m f s = (s', Raise e).
Proof. intros H. unfold bind. rewrite H. reflexivity. Qed.

Lemma load_run (h : heap) (a : ref) (arr : list R) (i : nat) (x : R) :
  h !! a = Some arr -> arr !! i = Some x -> load a i h = (h, Ok x).
Proof. intros Ha Hi. unfold load, getitem. rewrite Ha, Hi. reflexivity. Qed.

Lemma rescale_entry_run (h : heap) (a : ref) (arr : list R) (i : nat)
    (ai a0 factor : R) :
  h !! a = Some arr -> arr !! i = Some ai -> arr !! 0%nat = Some a0 ->
  rescale_entry a i factor h =
  (<[a := <[i := (ai - a0) * factor + a0]> arr]> h, Ok tt).
Proof.
  intros Ha Hi H0. unfold rescale_entry.
  rewrite (bind_run _ _ _ _ _ (load_run h a arr i ai Ha Hi)).
  rewrite (bind_run _ _ _ _ _ (load_run h a arr 0 a0 Ha H0)).
  rewrite (bind_run _ _ _ _ _ (load_run h a arr 0 a0 Ha H0)).
  unfold store. rewrite Ha.
  rewrite decide_True by (eapply lookup_lt_Some, Hi). reflexivity.
Qed.

Lemma scalePoseVector_run (h : heap) (xa ya : ref) (factor : R)
    (x0 x1 x2 x3 y0 y1 y2 y3 : R) :
  xa <> ya ->
  h !! xa = Some [x0; x1; x2; x3] -> h !! ya = Some [y0; y1; y2; y3] ->
  scalePoseVector xa ya factor h =
  (<[ya := rescaled factor [y0; y1; y2; y3]]>
     (<[xa := rescaled factor [x0; x1; x2; x3]]> h), Ok (xa, ya)).
Proof.
  intros Hne Hx Hy. unfold scalePoseVector. cbn [seq for_each].
  erewrite bind_run; [reflexivity|].
  erewrite bind_run; [|
    erewrite bind_run; [| eapply rescale_entry_run; [exact Hx | reflexivity | reflexivity]];
    eapply rescale_entry_run;
      [rewrite lookup_insert_ne by congruence; exact Hy | reflexivity | reflexivity]].
  erewrite bind_run; [|
    erewrite bind_run; [| eapply rescale_entry_run;
      [rewrite lookup_insert_ne by congruence; apply lookup_insert_eq | reflexivity | reflexivity]];
    eapply rescale_entry_run;
      [rewrite lookup_insert_ne by congruence; rewrite lookup_insert_eq; reflexivity | reflexivity | reflexivity]].
  erewrite bind_run; [|
    erewrite bind_run; [| eapply rescale_entry_run;
      [rewrite lookup_insert_ne by congruence; apply lookup_insert_eq | reflexivity | reflexivity]];
    eapply rescale_entry_run;
      [rewrite lookup_insert_ne by congruence; rewrite lookup_insert_eq; reflexivity | reflexivity | reflexivity]].
  unfold ret. f_equal. cbn [list_insert insert rescaled].
  apply map_eq. intros k.
  destruct (decide (k = ya)) as [->|Hky]; [|destruct (decide (k = xa)) as [->|Hkx]];
    repeat first [rewrite lookup_insert_eq | rewrite lookup_insert_ne by congruence];
    reflexivity.
Qed.

Lemma rescaled_factor_one (p : list R) : rescaled 1 p = p.
Proof.
  destruct p as [|p0 [|p1 [|p2 [|p3 [|p4 p]]]]]; try reflexivity.
  cbn [rescaled]. repeat (f_equal; try ring).
Qed.

(** C7 (amended).  For two distinct arrays [xa] and [ya] of length 4 and
    every real [factor], [scalePoseVector] returns the two arrays with
    entry 0 unchanged and each entry [i] in 1..3 equal to
    [(original[i] - original[0]) * factor + original[0]]; over exact real
    arithmetic [factor = 1] is the identity on all entries, and leaves the
    store as it was. *)
Theorem scalePoseVector_rescales (h : heap) (xa ya : ref) (xs ys : list R)
    (factor : R) :
  xa <> ya -> h !! xa = Some xs -> h !! ya = Some ys ->
  length xs = 4%nat -> length ys = 4%nat ->
  exists xs' ys',
    scalePoseVector xa ya factor h =
      (<[ya := ys']> (<[xa := xs']> h), Ok (xa, ya)) /\
    length xs' = 4%nat /\ length ys' = 4%nat /\
    xs' !! 0%nat = xs !! 0%nat /\ ys' !! 0%nat = ys !! 0%nat /\
    (forall i, (1 <= i <= 3)%nat ->
       xs' !! i = Some ((nth i xs 0 - nth 0 xs 0) * factor + nth 0 xs 0) /\
       ys' !! i = Some ((nth i ys 0 - nth 0 ys 0) * factor + nth 0 ys 0)) /\
    (factor = 1 -> xs' = xs /\ ys' = ys /\
                   scalePoseVector xa ya factor h = (h, Ok (xa, ya))).
Proof.
  intros Hne Hx Hy Hlx Hly.
  destruct (length4_inv xs Hlx) as (x0 & x1 & x2 & x3 & ->).
  destruct (length4_inv ys Hly) as (y0 & y1 & y2 & y3 & ->).
  exists (rescaled factor [x0; x1; x2; x3]), (rescaled factor [y0; y1; y2; y3]).
  split; [exact (scalePoseVector_run h xa ya factor _ _ _ _ _ _ _ _ Hne Hx Hy)|].
  do 4 (split; [reflexivity|]). split.
  - intros i Hi.
    assert (Hcases : i = 1%nat \/ i = 2%nat \/ i = 3%nat) by lia.
    destruct Hcases as [-> | [-> | ->]]; split; reflexivity.
  - intros ->. rewrite !rescaled_factor_one.
    split; [reflexivity|]. split; [reflexivity|].
    rewrite (scalePoseVector_run h xa ya 1 _ _ _ _ _ _ _ _ Hne Hx Hy).
    rewrite !rescaled_factor_one.
    rewrite (insert_id h xa _ Hx), (insert_id h ya _ Hy). reflexivity.
Qed.

(** When both arguments are the same array, every tip is rescaled twice. *)
Lemma scalePoseVector_same_array (h : heap) (a : ref) (factor x0 x1 x2 x3 : R) :
  h !! a = Some [x0; x1; x2; x3] ->
  scalePoseVector a a factor h =
  (<[a := rescaled factor (rescaled factor [x0; x1; x2; x3])]> h, Ok (a, a)).
Proof.
  intros Hx. unfold scalePoseVector. cbn [seq for_each].
  erewrite bind_run; [reflexivity|].
  erewrite bind_run; [|
    erewrite bind_run; [| eapply rescale_entry_run; [exact Hx | reflexivity | reflexivity]];
    eapply rescale_entry_run; [apply lookup_insert_eq | reflexivity | reflexivity]].
  erewrite bind_run; [|
    erewrite bind_run; [| eapply rescale_entry_run; [apply lookup_insert_eq | reflexivity | reflexivity]];
    eapply rescale_entry_run; [apply lookup_insert_eq | reflexivity | reflexivity]].
  erewrite bind_run; [|
    erewrite bind_run; [| eapply rescale_entry_run; [apply lookup_insert_eq | reflexivity | reflexivity]];
    eapply rescale_entry_run; [apply lookup_insert_eq | reflexivity | reflexivity]].
  unfold ret. f_equal. cbn [list_insert insert rescaled].
  rewrite !insert_insert_eq. reflexivity.
Qed.

(** The claim as worded, for every pair of sequences and with factor 1 as
    the identity, fails in two ways.  For the pair made of one array taken
    twice, [[0, 1, 1, 1]] with factor 2, entry 1 ends as 4 and not as
    [(1 - 0) * 2 + 0].  And in binary64, the arithmetic of the program,
    factor 1 is not the identity: with the origin 1 and the tip 0.1 in
    [xa], the new tip [(0.1 - 1) * 1 + 1] is less than 0.1. *)
Lemma scalePoseVector_counterexample :
  (exists xs',
     (scalePoseVector 0 0 2 {[0%nat := [0; 1; 1; 1]]}).1 !! 0%nat = Some xs' /\
     xs' !! 1%nat = Some 4 /\
     xs' !! 1%nat <> Some ((1 - 0) * 2 + 0)) /\
  (exists xs xs',
     Binary64.heap_example !! 0%nat = Some xs /\
     (Binary64.scalePoseVector 0 1 1%float Binary64.heap_example).1 !! 0%nat =
       Some xs' /\
     nth 1 xs nan = Binary64.tenth /\
     PrimFloat.ltb (nth 1 xs' nan) (nth 1 xs nan) = true).
Proof.
  split.
  - eexists.
    rewrite (scalePoseVector_same_array _ 0 2 0 1 1 1) by apply lookup_singleton_eq.
    cbn [fst rescaled]. split; [apply lookup_insert_eq|].
    cbn [lookup list_lookup].
    split; [f_equal; lra | intros Heq; injection Heq as Heq; lra].
  - eexists _, _. split; [reflexivity|].
    split; [vm_compute; reflexivity|].
    split; [reflexivity | vm_compute; reflexivity].
Qed.

(** ** Concrete instances *)

Lemma nonzero_head (x : R) (v : list R) : x <> 0 -> nonzero (x :: v).
Proof. intros Hx. apply Exists_cons_hd, Hx. Qed.


Lemma quat2dcm_entries_witness :
  exists Rm, quat2dcm [2; 0; 0; 0] = Ok Rm /\ ncols Rm = 3%nat.
Proof.
  assert (Hn : linalg_norm [2; 0; 0; 0] <> 0) by (apply norm_nonzero, nonzero_head; lra).
  destruct (quat2dcm_entries [2; 0; 0; 0] eq_refl Hn) as [_ H].
  eexists. split; [exact H | reflexivity].
Defined.

Lemma quat2dcm_proper_rotation_witness :
  exists Rm, quat2dcm [0; 3; 0; 4] = Ok Rm /\ det3 Rm = 1.
Proof.
  destruct (quat2dcm_proper_rotation [0; 3; 0; 4] eq_refl) as (Rm & H1 & _ & H2).
  - apply Exists_cons_tl, nonzero_head. lra.
  - exists Rm. split; assumption.
Defined.

Lemma quat2dcm_scale_invariant_witness :
  quat2dcm (vec_scale 5 [0; 3; 0; 4]) = quat2dcm [0; 3; 0; 4].
Proof.
  apply (quat2dcm_scale_invariant [0; 3; 0; 4] 5 eq_refl).
  - apply Exists_cons_tl, nonzero_head. lra.
  - lra.
Defined.

Lemma K_example_shape : has_shape K_example 3 3.
Proof. repeat split. repeat constructor. Qed.



Lemma project_identity_principal_point_witness :
  project [1; 0; 0; 0] [0; 0; 10] K_example (Array2 4 [[0; 0; 0; 1]]) =
  Ok ([128], [128]).
Proof.
  apply (project_identity_principal_point 10 K_example).
  - lra.
  - exact K_example_shape.
  - reflexivity.
Defined.

Lemma scalePoseVector_rescales_witness :
  exists xs' ys',
    scalePoseVector 0 1 0.5 heap_example =
      (<[1%nat := ys']> (<[0%nat := xs']> heap_example), Ok (0%nat, 1%nat)) /\
    xs' !! 0%nat = Some 0 /\ ys' !! 0%nat = Some 10.
Proof.
  destruct (scalePoseVector_rescales heap_example 0 1 [0; 1; 2; 3] [10; 11; 12; 14] 0.5)
    as (xs' & ys' & H1 & _ & _ & H2 & H3 & _).
  - discriminate.
  - unfold heap_example. rewrite lookup_insert_ne by discriminate. apply lookup_insert_eq.
  - apply lookup_insert_eq.
  - reflexivity.
  - reflexivity.
  - exists xs', ys'. repeat split; assumption.
Defined.

(** ** The dataset index *)

Section DatasetFacts.
Import Dataset.
#[local] Close Scope R_scope.

Lemma mapM_filename (label_list : list dict) :
  Forall labelled label_list ->
  exists ids, mapM (fun label => dict_get label "filename") label_list = Ok ids /\
              Forall2 id_of label_list ids.
Proof.
  induction 1 as [|label l Hl _ (ids & Hids & Hall)].
  - exists []. split; [reflexivity | constructor].
  - destruct Hl as ([id Hid] & _).
    exists (id :: ids). split.
    + rewrite mapM_cons, Hids. unfold dict_get. rewrite Hid. reflexivity.
    + constructor; assumption.
Qed.

Lemma make_label_ok (label : dict) :
  labelled label -> exists lab, make_label label = Ok lab.
Proof.
  intros (_ & [q Hq] & [r Hr] & [b Hb] & [w Hw]).
  unfold make_label, dict_get. rewrite Hq, Hr, Hb, Hw. eexists. reflexivity.
Qed.

Lemma mapM_make_label (label_list : list dict) :
  Forall labelled label_list ->
  exists labels, mapM make_label label_list = Ok labels /\
                 Forall2 label_of label_list labels.
Proof.
  induction 1 as [|label l Hl _ (labels & Hlabels & Hall)].
  - exists []. split; [reflexivity | constructor].
  - destruct (make_label_ok label Hl) as [lab Hlab].
    exists (lab :: labels). split.
    + rewrite mapM_cons, Hlabels, Hlab. reflexivity.
    + constructor; assumption.
Qed.

Lemma slice_to_nonneg {A} (l : list A) (k : Z) :
  (0 <= k <= Z.of_nat (length l))%Z -> Py.slice_to l k = take (Z.to_nat k) l.
Proof.
  intros Hk. unfold Py.slice_to. rewrite decide_False by lia.
  rewrite Z.min_l by lia. reflexivity.
Qed.

Lemma slice_to_minus_one {A} (l : list A) :
  Py.slice_to l (-1) = take (length l - 1) l.
Proof.
  unfold Py.slice_to. rewrite decide_True by lia.
  assert (H : Z.to_nat (Z.max 0 (-1 + Z.of_nat (length l))) = (length l - 1)%nat) by lia.
  rewrite H. reflexivity.
Qed.

Lemma index_nonneg {A} (l : list A) (i : Z) (x : A) :
  (0 <= i)%Z -> l !! Z.to_nat i = Some x -> Py.index l i = Ok x.
Proof.
  intros Hi Hx. unfold Py.index.
  pose proof (lookup_lt_Some _ _ _ Hx) as Hlt.
  destruct (decide (i < 0)%Z); [lia|].
  rewrite decide_True by lia. unfold getitem. rewrite Hx. reflexivity.
Qed.

Lemma train_is_valid : "train" ∈ valid_splits.
Proof. unfold valid_splits. set_solver. Qed.

Lemma init_invalid_split (split speed_root annotations_root : string)
    (input_size : R * R) (split_index : option Z)
    (transform : option Transform) (sanity_check : option Z)
    (w : world) (self : attrs) :
  split ∉ valid_splits ->
  init split speed_root annotations_root input_size split_index transform
       sanity_check (w, self) = ((w, self), Raise ValueError).
Proof.
  intros Hsplit. unfold init. rewrite decide_True by exact Hsplit. reflexivity.
Qed.

Lemma get_attr_run (s : state) (name : string) (v : value) :
  s.2 !! name = Some v -> getattr name s = (s, Ok v).
Proof. intros H. unfold getattr. rewrite H. reflexivity. Qed.

Lemma transform_stage_run (transform : option Transform) (input_size : R * R)
    (s : state) :
  transform_ok transform ->
  exists sz,
    match transform with
    | Some t => (stage <~ lift (getitem (transforms t) 0) ;;
                 setattr "input_size" (VSize (size stage)))%stexn
    | None => setattr "input_size" (VSize input_size)
    end s = ((s.1, <["input_size" := VSize sz]> s.2), Ok tt).
Proof.
  destruct transform as [[[|stage stages]]|]; cbn [transform_ok transforms].
  - intros H. contradiction.
  - intros _. exists (size stage). reflexivity.
  - intros _. exists input_size. reflexivity.
Qed.

Ltac run_getattr :=
  erewrite bind_run;
  [| unfold get_train, get_sample_ids, get_labels;
     erewrite bind_run;
     [| apply get_attr_run; cbn [fst snd];
        repeat first [ apply lookup_insert_eq
                     | rewrite lookup_insert_ne by discriminate ] ];
     reflexivity ].

Lemma init_train_truncate (speed_root annotations_root : string)
    (input_size : R * R) (split_index : option Z)
    (transform : option Transform) (w : world) (self : attrs)
    (label_list : list dict) (ids : list json) (labels : list dict) :
  files w !! Py.os_path_join annotations_root ["train.json"] = Some label_list ->
  mapM (fun label => dict_get label "filename") label_list = Ok ids ->
  mapM make_label label_list = Ok labels ->
  transform_ok transform ->
  let split_idx := match split_index with None => (-1)%Z | Some k => k end in
  exists self',
    init "train" speed_root annotations_root input_size split_index transform
         None (w, self) =
      ((World (files w)
              (opened w ++ [Py.os_path_join annotations_root ["train.json"]]),
        self'), Ok tt) /\
    self' !! "sample_ids" = Some (VIds (Py.slice_to ids split_idx)) /\
    self' !! "labels" = Some (VLabels (Py.slice_to labels split_idx)) /\
    self' !! "train" = Some (VBool true).
Proof.
  intros Hfile Hids Hlabels Ht split_idx. unfold init.
  rewrite decide_False by (intros H; exact (H train_is_valid)).
  erewrite bind_run;
    [| unfold load_json; cbn [fst snd];
       change ("train" +:+ ".json") with "train.json"; rewrite Hfile; reflexivity].
  erewrite bind_run; [| unfold lift; rewrite Hids; reflexivity].
  erewrite bind_run; [| reflexivity].
  erewrite bind_run; [| reflexivity].
  cbv zeta. cbn [fst snd]. run_getattr. cbn [String.eqb Ascii.eqb Bool.eqb].
  erewrite bind_run;
    [| erewrite bind_run; [| unfold lift; rewrite Hlabels; reflexivity];
       erewrite bind_run; [| reflexivity];
       run_getattr;
       erewrite bind_run; [| reflexivity];
       run_getattr; reflexivity ].
  do 4 (erewrite bind_run; [| reflexivity]).
  cbn [fst snd].
  match goal with
  | |- context [ match transform with Some _ => _ | None => _ end ?s ] =>
      destruct (transform_stage_run transform input_size s Ht) as [sz Hsz]
  end.
  eexists. split.
  - etransitivity; [exact Hsz|]. reflexivity.
  - cbn [fst snd]. fold split_idx.
    repeat split;
      repeat first [ apply lookup_insert_eq
                   | rewrite lookup_insert_ne by discriminate ].
Qed.

Lemma init_train_overfit (speed_root annotations_root : string)
    (input_size : R * R) (split_index : option Z)
    (transform : option Transform) (w : world) (self : attrs)
    (label_list : list dict) (ids : list json) (labels : list dict)
    (i : Z) (id : json) (lab : dict) :
  files w !! Py.os_path_join annotations_root ["train.json"] = Some label_list ->
  mapM (fun label => dict_get label "filename") label_list = Ok ids ->
  mapM make_label label_list = Ok labels ->
  transform_ok transform ->
  (0 <= i)%Z -> ids !! Z.to_nat i = Some id -> labels !! Z.to_nat i = Some lab ->
  exists self',
    init "train" speed_root annotations_root input_size split_index transform
         (Some i) (w, self) =
      ((World (files w)
              (opened w ++ [Py.os_path_join annotations_root ["train.json"]]),
        self'), Ok tt) /\
    self' !! "sample_ids" = Some (VIds [id]) /\
    self' !! "labels" = Some (VLabels [lab]) /\
    self' !! "train" = Some (VBool true).
Proof.
  intros Hfile Hids Hlabels Ht Hi Hid Hlab. unfold init.
  rewrite decide_False by (intros H; exact (H train_is_valid)).
  erewrite bind_run;
    [| unfold load_json; cbn [fst snd];
       change ("train" +:+ ".json") with "train.json"; rewrite Hfile; reflexivity].
  erewrite bind_run; [| unfold lift; rewrite Hids; reflexivity].
  erewrite bind_run; [| reflexivity].
  erewrite bind_run; [| reflexivity].
  cbv zeta. cbn [fst snd]. run_getattr. cbn [String.eqb Ascii.eqb Bool.eqb].
  erewrite bind_run;
    [| erewrite bind_run; [| unfold lift; rewrite Hlabels; reflexivity];
       erewrite bind_run; [| reflexivity];
       run_getattr;
       erewrite bind_run;
         [| unfold lift; rewrite (index_nonneg ids i id Hi Hid); reflexivity];
       erewrite bind_run; [| reflexivity];
       run_getattr;
       erewrite bind_run;
         [| unfold lift; rewrite (index_nonneg labels i lab Hi Hlab); reflexivity];
       reflexivity ].
  do 4 (erewrite bind_run; [| reflexivity]).
  cbn [fst snd].
  match goal with
  | |- context [ match transform with Some _ => _ | None => _ end ?s ] =>
      destruct (transform_stage_run transform input_size s Ht) as [sz Hsz]
  end.
  eexists. split.
  - etransitivity; [exact Hsz|]. reflexivity.
  - cbn [fst snd].
    repeat split;
      repeat first [ apply lookup_insert_eq
                   | rewrite lookup_insert_ne by discriminate ].
Qed.

Lemma construct_ok split speed_root annotations_root input_size split_index
    transform sanity_check (w w' : world) (self' : attrs) :
  init split speed_root annotations_root input_size split_index transform
       sanity_check (w, ∅) = ((w', self'), Ok tt) ->
  construct split speed_root annotations_root input_size split_index transform
            sanity_check w = (w', Ok self').
Proof. intros H. unfold construct. rewrite H. reflexivity. Qed.

Lemma len_ids (self : attrs) (ids : list json) :
  self !! "sample_ids" = Some (VIds ids) -> len self = Ok (length ids).
Proof. intros H. unfold len. rewrite H. reflexivity. Qed.

(** C8.  For every split name outside [{train, test, real_test}] the
    construction of a [SpeedDataset] raises [ValueError]; no file has been
    opened and no attribute of the object has been set. *)
Theorem invalid_split_rejected (split speed_root annotations_root : string)
    (input_size : R * R) (split_index : option Z)
    (transform : option Transform) (sanity_check : option Z) (w : world) :
  split ∉ valid_splits ->
  construct split speed_root annotations_root input_size split_index transform
            sanity_check w = (w, Raise ValueError) /\
  forall self : attrs,
    init split speed_root annotations_root input_size split_index transform
         sanity_check (w, self) = ((w, self), Raise ValueError).
Proof.
  intros Hsplit. split.
  - unfold construct. rewrite init_invalid_split by exact Hsplit. reflexivity.
  - intros self. apply init_invalid_split, Hsplit.
Qed.

(** C9.  For a train split of N records: with [split_index = k],
    [0 <= k < N], and no overfit index, the index holds exactly the first
    [k] records, in order; with an overfit index [i], [0 <= i < N], it
    holds exactly the one sample of record [i], whatever [split_index]. *)
Theorem train_index_truncate_and_overfit (speed_root annotations_root : string)
    (input_size : R * R) (transform : option Transform) (w : world)
    (label_list : list dict) :
  files w !! Py.os_path_join annotations_root ["train.json"] = Some label_list ->
  Forall labelled label_list ->
  transform_ok transform ->
  let N := Z.of_nat (length label_list) in
  (forall k : Z, (0 <= k < N)%Z ->
     exists w' self' ids labels,
       construct "train" speed_root annotations_root input_size (Some k)
                 transform None w = (w', Ok self') /\
       self' !! "sample_ids" = Some (VIds ids) /\
       self' !! "labels" = Some (VLabels labels) /\
       Forall2 id_of (take (Z.to_nat k) label_list) ids /\
       Forall2 label_of (take (Z.to_nat k) label_list) labels /\
       len self' = Ok (Z.to_nat k)) /\
  (forall (i : Z) (split_index : option Z), (0 <= i < N)%Z ->
     exists w' self' record id lab,
       construct "train" speed_root annotations_root input_size split_index
                 transform (Some i) w = (w', Ok self') /\
       label_list !! Z.to_nat i = Some record /\
       id_of record id /\ label_of record lab /\
       self' !! "sample_ids" = Some (VIds [id]) /\
       self' !! "labels" = Some (VLabels [lab]) /\
       len self' = Ok 1%nat).
Proof.
  intros Hfile Hwf Ht N.
  destruct (mapM_filename label_list Hwf) as (ids & Hids & Hall_ids).
  destruct (mapM_make_label label_list Hwf) as (labels & Hlabels & Hall_labels).
  pose proof (Forall2_length _ _ _ Hall_ids) as Hlen_ids.
  pose proof (Forall2_length _ _ _ Hall_labels) as Hlen_labels.
  split.
  - intros k Hk.
    destruct (init_train_truncate speed_root annotations_root input_size (Some k)
                transform w ∅ label_list ids labels Hfile Hids Hlabels Ht)
      as (self' & Hrun & Hs & Hl & _).
    rewrite slice_to_nonneg in Hs by lia.
    rewrite slice_to_nonneg in Hl by lia.
    eexists _, self', _, _. split; [apply construct_ok, Hrun|].
    split; [exact Hs|]. split; [exact Hl|].
    split; [apply Forall2_take, Hall_ids|].
    split; [apply Forall2_take, Hall_labels|].
    rewrite (len_ids _ _ Hs). f_equal. rewrite length_take. lia.
  - intros i split_index Hi.
    destruct (lookup_lt_is_Some_2 label_list (Z.to_nat i)) as [record Hrec];
      [lia|].
    destruct (Forall2_lookup_l _ _ _ _ _ Hall_ids Hrec) as (id & Hid & Hid_of).
    destruct (Forall2_lookup_l _ _ _ _ _ Hall_labels Hrec) as (lab & Hlab & Hlab_of).
    destruct (init_train_overfit speed_root annotations_root input_size split_index
                transform w ∅ label_list ids labels i id lab
                Hfile Hids Hlabels Ht ltac:(lia) Hid Hlab)
      as (self' & Hrun & Hs & Hl & _).
    eexists _, self', record, id, lab. split; [apply construct_ok, Hrun|].
    repeat (split; [assumption|]). apply (len_ids _ _ Hs).
Qed.

(** C10.  For a train split of [N >= 1] records, constructing the dataset
    with [split_index = None] and no overfit index yields [N - 1] samples,
    not [N]: the last record is dropped from the sample ids and from the
    labels. *)
Theorem train_index_default_drops_last (speed_root annotations_root : string)
    (input_size : R * R) (transform : option Transform) (w : world)
    (label_list : list dict) :
  files w !! Py.os_path_join annotations_root ["train.json"] = Some label_list ->
  Forall labelled label_list ->
  transform_ok transform ->
  (1 <= length label_list)%nat ->
  let N := length label_list in
  exists w' self' ids labels last,
    construct "train" speed_root annotations_root input_size None
              transform None w = (w', Ok self') /\
    self' !! "sample_ids" = Some (VIds ids) /\
    self' !! "labels" = Some (VLabels labels) /\
    label_list = take (N - 1) label_list ++ [last] /\
    Forall2 id_of (take (N - 1) label_list) ids /\
    Forall2 label_of (take (N - 1) label_list) labels /\
    len self' = Ok (N - 1)%nat /\ len self' <> Ok N.
Proof.
  intros Hfile Hwf Ht HN N.
  destruct (mapM_filename label_list Hwf) as (ids & Hids & Hall_ids).
  destruct (mapM_make_label label_list Hwf) as (labels & Hlabels & Hall_labels).
  pose proof (Forall2_length _ _ _ Hall_ids) as Hlen_ids.
  pose proof (Forall2_length _ _ _ Hall_labels) as Hlen_labels.
  destruct (init_train_truncate speed_root annotations_root input_size None
              transform w ∅ label_list ids labels Hfile Hids Hlabels Ht)
    as (self' & Hrun & Hs & Hl & _).
  cbv zeta in Hs, Hl. rewrite slice_to_minus_one in Hs. rewrite slice_to_minus_one in Hl.
  rewrite <- Hlen_ids in Hs. rewrite <- Hlen_labels in Hl. fold N in Hs, Hl.
  assert (Hlast : exists last, label_list = take (N - 1) label_list ++ [last]).
  { destruct (lookup_lt_is_Some_2 label_list (N - 1)) as [last Hlast]; [subst N; lia|].
    exists last. rewrite <- (take_drop (N - 1) label_list) at 1. f_equal.
    rewrite (drop_S _ _ _ Hlast). rewrite drop_ge by (subst N; lia). reflexivity. }
  destruct Hlast as [last Hlast].
  assert (Hlen : len self' = Ok (N - 1)%nat).
  { rewrite (len_ids _ _ Hs). f_equal. rewrite length_take. subst N. lia. }
  eexists _, self', _, _, last. split; [apply construct_ok, Hrun|].
  split; [exact Hs|]. split; [exact Hl|]. split; [exact Hlast|].
  split; [apply Forall2_take, Hall_ids|].
  split; [apply Forall2_take, Hall_labels|].
  split; [exact Hlen|].
  rewrite Hlen. intros Heq. injection Heq as Heq. subst N. lia.
Qed.

Lemma record_example_labelled (name : string) : labelled (record_example name).
Proof.
  unfold labelled, record_example.
  repeat split; eexists;
    repeat first [ apply lookup_insert_eq
                 | rewrite lookup_insert_ne by discriminate ].
Qed.

Lemma world_example_train :
  files world_example !! Py.os_path_join "" ["train.json"] =
  Some [record_example "img1.jpg"; record_example "img2.jpg";
        record_example "img3.jpg"].
Proof. apply lookup_insert_eq. Qed.

Lemma invalid_split_rejected_witness :
  construct "val" "" "" (256%R, 256%R) None None None world_example =
  (world_example, Raise ValueError).
Proof.
  apply (invalid_split_rejected "val" "" "" (256%R, 256%R) None None None world_example).
  unfold Dataset.valid_splits.
  rewrite !not_elem_of_union, !not_elem_of_singleton.
  repeat split; discriminate.
Defined.

Lemma train_index_truncate_and_overfit_witness :
  exists w' self',
    construct "train" "" "" (256%R, 256%R) (Some 2%Z) None None world_example =
      (w', Ok self') /\
    len self' = Ok 2%nat.
Proof.
  destruct (train_index_truncate_and_overfit "" "" (256%R, 256%R) None world_example _
              world_example_train) as [Htrunc _].
  - repeat constructor; apply record_example_labelled.
  - exact I.
  - destruct (Htrunc 2%Z) as (w' & self' & ids & labels & H1 & _ & _ & _ & _ & H2).
    + cbn [length]. lia.
    + exists w', self'. split; assumption.
Defined.

Lemma train_index_default_drops_last_witness :
  exists w' self',
    construct "train" "" "" (256%R, 256%R) None None None world_example =
      (w', Ok self') /\
    len self' = Ok 2%nat.
Proof.
  destruct (train_index_default_drops_last "" "" (256%R, 256%R) None world_example _
              world_example_train)
    as (w' & self' & ids & labels & last & H1 & _ & _ & _ & _ & _ & H2 & _).
  - repeat constructor; apply record_example_labelled.
  - exact I.
  - cbn [length]. lia.
  - exists w', self'. split; assumption.
Defined.

End DatasetFacts.

(** * Further properties *)

Import MoreExamples.

(** *** Quaternion to rotation *)

Ltac entries_by tac :=
  repeat match goal with
         | |- Ok _ = Ok _ => apply f_equal
         | |- Array2 ?n _ = Array2 ?n _ => apply (f_equal (Array2 n))
         | |- (_, _) = (_, _) => apply f_equal2
         | |- _ :: _ = _ :: _ => apply (f_equal2 cons)
         | |- @eq R _ _ => tac
         | |- @eq (list _) [] [] => reflexivity
         end.

Lemma spec_dcm_opp q0 q1 q2 q3 :
  spec_dcm (- q0) (- q1) (- q2) (- q3) = spec_dcm q0 q1 q2 q3.
Proof. unfold spec_dcm. entries_by ltac:(ring). Qed.

(** X1.  [quat2dcm] does not see the sign of a quaternion: for every
    non-zero 4-element [q], [quat2dcm (-q) = quat2dcm q], and both are
    matrices.  The norm of [-q] is computed from the same squares, each
    quotient only changes its sign, and every entry is made of squares and
    of products of two components. *)
Theorem quat2dcm_sign_invariant (q : list R) :
  length q = 4%nat -> nonzero q ->
  quat2dcm (map Ropp q) = quat2dcm q /\ exists Rm, quat2dcm q = Ok Rm.
Proof.
  intros Hlen Hq. pose proof (norm_nonzero q Hq) as Hn.
  destruct (length4_inv q Hlen) as (a & b & c & d & ->).
  cbn [map].
  assert (Hnorm : linalg_norm [- a; - b; - c; - d] = linalg_norm [a; b; c; d]).
  { unfold linalg_norm. rewrite !vdot4. f_equal. ring. }
  assert (Hn' : linalg_norm [- a; - b; - c; - d] <> 0) by (rewrite Hnorm; exact Hn).
  split; [|eexists; exact (quat2dcm_explicit a b c d Hn)].
  rewrite (quat2dcm_explicit _ _ _ _ Hn'), (quat2dcm_explicit _ _ _ _ Hn), Hnorm.
  rewrite <- (spec_dcm_opp (a / _) (b / _) (c / _) (d / _)).
  f_equal. f_equal; field; exact Hn.
Qed.

Lemma quat2dcm_sign_invariant_witness :
  quat2dcm (map Ropp [0; 3; 0; 4]) = quat2dcm [0; 3; 0; 4].
Proof.
  apply (quat2dcm_sign_invariant [0; 3; 0; 4] eq_refl).
  apply Exists_cons_tl, nonzero_head. lra.
Defined.

(** X2.  The conjugate quaternion gives the transposed, that is the
    inverse, rotation: for every non-zero [q = [a, b, c, d]],
    [quat2dcm [a, -b, -c, -d]] is the transpose of [quat2dcm q]. *)
Theorem quat2dcm_conjugate_transpose (a b c d : R) :
  nonzero [a; b; c; d] ->
  exists Rm, quat2dcm [a; b; c; d] = Ok Rm /\
             quat2dcm [a; - b; - c; - d] = Ok (transpose Rm).
Proof.
  intros Hq. pose proof (norm_nonzero _ Hq) as Hn.
  assert (Hnorm : linalg_norm [a; - b; - c; - d] = linalg_norm [a; b; c; d]).
  { unfold linalg_norm. rewrite !vdot4. f_equal. ring. }
  assert (Hn' : linalg_norm [a; - b; - c; - d] <> 0) by (rewrite Hnorm; exact Hn).
  eexists. split; [exact (quat2dcm_explicit a b c d Hn)|].
  rewrite (quat2dcm_explicit _ _ _ _ Hn'), Hnorm.
  unfold transpose, column, nrows, spec_dcm. cbn [ncols rows length seq map nth].
  entries_by ltac:(field; exact Hn).
Qed.

Lemma quat2dcm_conjugate_transpose_witness :
  exists Rm, quat2dcm [1; 2; 3; 4] = Ok Rm /\
             quat2dcm [1; - 2; - 3; - 4] = Ok (transpose Rm).
Proof.
  apply (quat2dcm_conjugate_transpose 1 2 3 4).
  apply nonzero_head. lra.
Defined.

Lemma fdiv_zero x : fdiv x 0 = Raise NonFinite.
Proof. unfold fdiv. destruct (Req_dec_T 0 0); [reflexivity | contradiction]. Qed.

(** X3.  A vector of at least four components and of zero norm cannot be
    normalised: the division by the norm is not guarded, the components
    read afterwards are not finite, and [quat2dcm] ends with the
    non-finite outcome; no exception is raised. *)
Theorem quat2dcm_zero_norm_not_finite (q : list R) :
  (4 <= length q)%nat -> linalg_norm q = 0 -> quat2dcm q = Raise NonFinite.
Proof.
  intros Hq Hn. destruct q as [|x q]; [cbn [length] in Hq; lia|].
  unfold quat2dcm, vec_div. rewrite Hn, mapM_cons, fdiv_zero. reflexivity.
Qed.

Lemma quat2dcm_zero_norm_not_finite_witness :
  quat2dcm [0; 0; 0; 0] = Raise NonFinite.
Proof.
  apply quat2dcm_zero_norm_not_finite; [cbn [length]; lia|].
  unfold linalg_norm. rewrite vdot4.
  replace (0 * 0 + 0 * 0 + 0 * 0 + 0 * 0) with 0 by ring. apply sqrt_0.
Defined.

(** X4.  A vector with fewer than four components, empty or of non-zero
    norm, makes [quat2dcm] raise [IndexError]. *)
Theorem quat2dcm_short_index_error (q : list R) :
  (length q < 4)%nat -> q = [] \/ linalg_norm q <> 0 ->
  quat2dcm q = Raise IndexError.
Proof.
  intros Hlen [-> | Hn]; [reflexivity|].
  unfold quat2dcm. rewrite (vec_div_ok q _ Hn).
  destruct q as [|a [|b [|c [|d q]]]]; try reflexivity.
  cbn [length] in Hlen. lia.
Qed.

Lemma quat2dcm_short_index_error_witness :
  quat2dcm [1; 0; 0] = Raise IndexError.
Proof.
  apply quat2dcm_short_index_error; [cbn [length]; lia|].
  right. apply norm_nonzero, nonzero_head. lra.
Defined.

(** *** The projector *)

Lemma bind_Raise {A B} (e : exn) (f : A -> result B) : (Raise e ≫= f) = Raise e.
Proof. reflexivity. Qed.

Lemma getitem_map {A B} (f : A -> B) (l : list A) (i : nat) :
  getitem (map f l) i = x ← getitem l i; mret (f x).
Proof.
  unfold getitem. change (map f l) with (f <$> l). rewrite list_lookup_fmap.
  destruct (l !! i); reflexivity.
Qed.

(** X5.  [project] reads only the first two rows of [K]: two intrinsics
    with as many columns and the same rows 0 and 1 give the same outcome,
    for every quaternion, translation and point set. *)
Theorem project_ignores_last_row (q r : list R) (K K' points : ndarray) :
  ncols K = ncols K' ->
  rows K !! 0%nat = rows K' !! 0%nat ->
  rows K !! 1%nat = rows K' !! 1%nat ->
  project q r K points = project q r K' points.
Proof.
  intros Hc H0 H1. unfold project.
  destruct (quat2dcm q) as [D|e]; [|reflexivity]. rewrite !bind_Ok.
  destruct (hstack _ _) as [P|e]; [|reflexivity]. rewrite !bind_Ok.
  destruct (dot P _) as [pc|e]; [|reflexivity]. rewrite !bind_Ok.
  destruct (getitem (rows pc) 2) as [depth|e]; [|reflexivity]. rewrite !bind_Ok.
  destruct (div_rows pc depth) as [pcf|e]; [|reflexivity]. rewrite !bind_Ok.
  unfold dot. rewrite <- Hc.
  destruct (decide (ncols K = nrows pcf)); [|reflexivity].
  rewrite !bind_Ok. cbn [rows]. rewrite !getitem_map.
  unfold getitem. rewrite <- H0, <- H1. reflexivity.
Qed.

Lemma project_ignores_last_row_witness :
  project [1; 0; 0; 0] [0; 0; 10] K_example Dataset.axes_vertices_const =
  project [1; 0; 0; 0] [0; 0; 10]
          (Array2 3 [[3; 0; 128]; [0; 3; 128]; [7; 7; 7]])
          Dataset.axes_vertices_const.
Proof.
  apply project_ignores_last_row; reflexivity.
Defined.

(** X6.  The pinhole formula.  For a non-zero 4-element quaternion, a
    3-element translation, a 3×3 [K] and N homogeneous points whose depths
    under the pose matrix [P = [Rᵗ | r]] are non-zero, [project] returns,
    point by point, the rows 0 and 1 of [K] applied to the camera-frame
    coordinates divided by the depth. *)
Theorem project_pinhole_formula (q r : list R) (K points : ndarray) :
  length q = 4%nat -> nonzero q -> length r = 3%nat ->
  has_shape K 3 3 -> wf points -> ncols points = 4%nat ->
  exists P,
    pose_matrix q r = Ok P /\ has_shape P 3 4 /\
    (Forall (fun p => vdot (nth 2 (rows P) []) p <> 0) (rows points) ->
     project q r K points =
     Ok (map (pixel (nth 0 (rows K) []) P) (rows points),
         map (pixel (nth 1 (rows K) []) P) (rows points))).
Proof.
  intros Hlen Hq Hr HK Hwf Hc.
  pose proof (norm_nonzero q Hq) as Hn.
  destruct (length4_inv q Hlen) as (a & b & c & d & ->).
  destruct (length3_inv r Hr) as (r0 & r1 & r2 & ->).
  destruct (shape33_inv K HK)
    as (k00 & k01 & k02 & k10 & k11 & k12 & k20 & k21 & k22 & ->).
  pose proof (pose_matrix_explicit a b c d r0 r1 r2 Hn) as Hpose.
  cbv zeta in Hpose. eexists. split; [exact Hpose|]. split.
  - repeat split. repeat constructor.
  - intros Hdepth.
    eapply project_core; try exact Hpose; try reflexivity; assumption.
Qed.

Lemma project_pinhole_formula_witness :
  exists P, pose_matrix [1; 0; 0; 0] [0; 0; 10] = Ok P /\ has_shape P 3 4.
Proof.
  destruct (project_pinhole_formula [1; 0; 0; 0] [0; 0; 10] K_example
              Dataset.axes_vertices_const eq_refl) as (P & H1 & H2 & _).
  - apply nonzero_head. lra.
  - reflexivity.
  - exact K_example_shape.
  - repeat constructor.
  - reflexivity.
  - exists P. split; assumption.
Defined.

(** X7.  An empty point set projects to two empty sequences. *)
Theorem project_no_points (q r : list R) (K : ndarray) :
  length q = 4%nat -> nonzero q -> length r = 3%nat -> has_shape K 3 3 ->
  project q r K (Array2 4 []) = Ok ([], []).
Proof.
  intros Hlen Hq Hr HK.
  pose proof (norm_nonzero q Hq) as Hn.
  destruct (length4_inv q Hlen) as (a & b & c & d & ->).
  destruct (length3_inv r Hr) as (r0 & r1 & r2 & ->).
  destruct (shape33_inv K HK)
    as (k00 & k01 & k02 & k10 & k11 & k12 & k20 & k21 & k22 & ->).
  pose proof (pose_matrix_explicit a b c d r0 r1 r2 Hn) as Hpose.
  cbv zeta in Hpose.
  erewrite project_core; try exact Hpose; try reflexivity; constructor.
Qed.

Lemma project_no_points_witness :
  project [0; 3; 0; 4] [1; 2; 3] K_example (Array2 4 []) = Ok ([], []).
Proof.
  apply project_no_points; [reflexivity | | reflexivity | exact K_example_shape].
  apply Exists_cons_tl, nonzero_head. lra.
Defined.

(** X8.  A translation that has not three components makes [project]
    raise [ValueError], when the rotation is stacked with it. *)
Theorem project_translation_length (q r : list R) (K points : ndarray) :
  length q = 4%nat -> nonzero q -> length r <> 3%nat ->
  project q r K points = Raise ValueError.
Proof.
  intros Hlen Hq Hr.
  pose proof (norm_nonzero q Hq) as Hn.
  destruct (length4_inv q Hlen) as (a & b & c & d & ->).
  unfold project. rewrite (quat2dcm_explicit a b c d Hn), bind_Ok.
  unfold hstack, nrows, expand_dims1, transpose. cbn [rows ncols spec_dcm].
  rewrite !length_map, length_seq.
  rewrite decide_False by congruence. reflexivity.
Qed.

Lemma project_translation_length_witness :
  project [1; 0; 0; 0] [0; 10] K_example Dataset.axes_vertices_const =
  Raise ValueError.
Proof.
  apply project_translation_length; [reflexivity | | discriminate].
  apply nonzero_head. lra.
Defined.

Lemma vec_div_elem_zero {A} (f g : A -> R) (l : list A) :
  Exists (fun p => g p = 0) l ->
  vec_div_elem (map f l) (map g l) = Raise NonFinite.
Proof.
  unfold vec_div_elem. induction l as [|p l IH]; intros Hex.
  - inversion Hex.
  - cbn [map zip_with]. rewrite mapM_cons. cbn [fst snd].
    destruct (Req_dec_T (g p) 0) as [Hz | Hnz].
    + rewrite Hz, fdiv_zero. reflexivity.
    + rewrite (fdiv_ok _ _ Hnz), bind_Ok.
      inversion Hex as [? ? Hp | ? ? Hl]; subst; [contradiction|].
      rewrite (IH Hl). reflexivity.
Qed.

(** X9.  A point at depth zero makes the projection non-finite, for every
    3×3 matrix of intrinsics: the division by the depth row is not
    guarded, the camera-frame coordinates of that point are [inf] or
    [nan], and so are its pixel coordinates. *)
Theorem project_zero_depth_not_finite (q r : list R) (K points : ndarray) :
  length q = 4%nat -> nonzero q -> length r = 3%nat ->
  has_shape K 3 3 -> wf points -> ncols points = 4%nat ->
  (exists p_cam depth,
     camera_frame q r points = Ok p_cam /\
     rows p_cam !! 2%nat = Some depth /\
     Exists (fun z => z = 0) depth) ->
  project q r K points = Raise NonFinite.
Proof.
  intros Hlen Hq Hr _ Hwf Hc (pc & depth & Hcam & Hrow & Hzero).
  pose proof (norm_nonzero q Hq) as Hn.
  destruct (length4_inv q Hlen) as (a & b & c & d & ->).
  destruct (length3_inv r Hr) as (r0 & r1 & r2 & ->).
  pose proof (pose_matrix_explicit a b c d r0 r1 r2 Hn) as Hpose.
  cbv zeta in Hpose. set (P := Array2 4 _) in Hpose.
  unfold camera_frame in Hcam. rewrite Hpose, bind_Ok in Hcam.
  rewrite dot_transpose in Hcam by (assumption || (symmetry; exact Hc)).
  injection Hcam as <-. cbn [rows map lookup list_lookup] in Hrow.
  injection Hrow as <-. rewrite List.Exists_map in Hzero.
  subst P. cbn [rows nth] in Hzero.
  unfold project, pose_matrix in *.
  destruct (quat2dcm [a; b; c; d]) as [D|e]; [|discriminate].
  cbn [mbind result_bind] in Hpose. rewrite bind_Ok, Hpose, bind_Ok.
  rewrite dot_transpose by (assumption || (symmetry; exact Hc)).
  rewrite bind_Ok. cbn [rows map getitem lookup list_lookup].
  rewrite bind_Ok. unfold div_rows. cbn [ncols rows].
  rewrite decide_True by (rewrite length_map; reflexivity).
  rewrite mapM_cons, (vec_div_elem_zero _ _ _ Hzero). reflexivity.
Qed.

Lemma camera_frame_explicit a b c d r0 r1 r2 (points : ndarray) :
  let n := linalg_norm [a; b; c; d] in
  let D := spec_dcm (a / n) (b / n) (c / n) (d / n) in
  n <> 0 -> wf points -> ncols points = 4%nat ->
  camera_frame [a; b; c; d] [r0; r1; r2] points =
  Ok (Array2 (nrows points)
        [map (vdot [entry D 0 0; entry D 1 0; entry D 2 0; r0]) (rows points);
         map (vdot [entry D 0 1; entry D 1 1; entry D 2 1; r1]) (rows points);
         map (vdot [entry D 0 2; entry D 1 2; entry D 2 2; r2]) (rows points)]).
Proof.
  intros n D Hn Hwf Hc. unfold camera_frame.
  rewrite (pose_matrix_explicit a b c d r0 r1 r2 Hn), bind_Ok.
  rewrite dot_transpose by (assumption || (symmetry; exact Hc)). reflexivity.
Qed.

Lemma project_zero_depth_not_finite_witness :
  project [1; 0; 0; 0] [0; 0; 0] K_example Dataset.axes_vertices_const =
  Raise NonFinite.
Proof.
  apply project_zero_depth_not_finite;
    [reflexivity | apply nonzero_head; lra | reflexivity
    | exact K_example_shape | repeat constructor | reflexivity |].
  eexists _, _. split.
  - apply camera_frame_explicit;
      [rewrite norm_identity; lra | repeat constructor | reflexivity].
  - split; [reflexivity|].
    apply Exists_cons_hd. rewrite vdot4. lra.
Defined.

Lemma norm_scalar (w : R) : linalg_norm [w; 0; 0; 0] = Rabs w.
Proof.
  unfold linalg_norm. rewrite vdot4.
  replace (w * w + 0 * 0 + 0 * 0 + 0 * 0) with (Rsqr w) by (unfold Rsqr; ring).
  apply sqrt_Rsqr_abs.
Qed.

Lemma quat2dcm_scalar (w : R) : w <> 0 -> quat2dcm [w; 0; 0; 0] = Ok eye3.
Proof.
  intros Hw. pose proof (Rabs_no_R0 w Hw) as Ha.
  assert (Hn : linalg_norm [w; 0; 0; 0] <> 0) by (rewrite norm_scalar; exact Ha).
  rewrite (quat2dcm_explicit _ _ _ _ Hn), norm_scalar.
  assert (Hu : (w / Rabs w) ^ 2 = 1).
  { replace ((w / Rabs w) ^ 2) with (Rsqr w / Rsqr (Rabs w))
      by (unfold Rsqr; field; exact Ha).
    rewrite <- Rsqr_abs. field. unfold Rsqr.
    apply Rmult_integral_contrapositive_currified; exact Hw. }
  unfold spec_dcm, eye3, Rdiv. rewrite !Rmult_0_l. fold (w / Rabs w). rewrite Hu.
  entries_by ltac:(ring).
Qed.

Lemma project_scalar_explicit (w tx ty tz X Y Z W : R)
    (k00 k01 k02 k10 k11 k12 k20 k21 k22 : R) :
  w <> 0 -> Z + tz * W <> 0 ->
  project [w; 0; 0; 0] [tx; ty; tz]
          (Array2 3 [[k00; k01; k02]; [k10; k11; k12]; [k20; k21; k22]])
          (Array2 4 [[X; Y; Z; W]]) =
  Ok ([k00 * ((X + tx * W) / (Z + tz * W)) +
       k01 * ((Y + ty * W) / (Z + tz * W)) + k02],
      [k10 * ((X + tx * W) / (Z + tz * W)) +
       k11 * ((Y + ty * W) / (Z + tz * W)) + k12]).
Proof.
  intros Hw Hdepth.
  assert (Hpose : pose_matrix [w; 0; 0; 0] [tx; ty; tz] =
                  Ok (Array2 4 [[1; 0; 0; tx]; [0; 1; 0; ty]; [0; 0; 1; tz]])).
  { unfold pose_matrix. rewrite (quat2dcm_scalar w Hw). reflexivity. }
  erewrite project_core; try exact Hpose; try reflexivity.
  - unfold pixel. cbn [rows map nth]. rewrite !vdot4, !vdot3.
    entries_by ltac:(field; lra).
  - repeat constructor.
  - cbn [rows]. constructor; [|constructor]. rewrite vdot4. lra.
Qed.

(** X10.  A quaternion with only a scalar part is no rotation: with
    [q = [w, 0, 0, 0]], [w <> 0], the point [(X, Y, Z, W)] is translated by
    [W · r] and projected through rows 0 and 1 of [K], provided its depth
    [Z + tz · W] is not zero. *)
Theorem project_scalar_quaternion (w tx ty tz X Y Z W : R) (K : ndarray) :
  w <> 0 -> has_shape K 3 3 -> Z + tz * W <> 0 ->
  let depth := Z + tz * W in
  project [w; 0; 0; 0] [tx; ty; tz] K (Array2 4 [[X; Y; Z; W]]) =
  Ok ([entry K 0 0 * ((X + tx * W) / depth) +
       entry K 0 1 * ((Y + ty * W) / depth) + entry K 0 2],
      [entry K 1 0 * ((X + tx * W) / depth) +
       entry K 1 1 * ((Y + ty * W) / depth) + entry K 1 2]).
Proof.
  intros Hw HK Hdepth depth. subst depth.
  destruct (shape33_inv K HK)
    as (k00 & k01 & k02 & k10 & k11 & k12 & k20 & k21 & k22 & ->).
  apply project_scalar_explicit; assumption.
Qed.

Lemma project_scalar_quaternion_witness :
  project [2; 0; 0; 0] [0; 0; 10] K_example (Array2 4 [[1; 0; 0; 1]]) =
  Ok ([3 * ((1 + 0 * 1) / (0 + 10 * 1)) + 0 * ((0 + 0 * 1) / (0 + 10 * 1)) + 128],
      [0 * ((1 + 0 * 1) / (0 + 10 * 1)) + 3 * ((0 + 0 * 1) / (0 + 10 * 1)) + 128]).
Proof.
  apply (project_scalar_quaternion 2 0 0 10 1 0 0 1 K_example).
  - lra.
  - exact K_example_shape.
  - lra.
Defined.

(** *** The camera model, and the camera with the projector *)

Section CameraMore.
Import Camera.

(** X12.  The constructor raises [ZeroDivisionError] exactly when a
    component of the native size is zero.  For every other native size it
    builds a camera: the object holds the input size it was given, the
    sensor resolution 1920 × 1200 and a 3×3 matrix of intrinsics. *)
Theorem Camera_init_zero_division (native input : R * R) :
  (init native input = Raise ZeroDivisionError <->
   (fst native = 0 \/ snd native = 0)) /\
  (fst native <> 0 /\ snd native <> 0 <->
   exists cam, init native input = Ok cam) /\
  (forall cam, init native input = Ok cam ->
     input_size cam = input /\ nu cam = 1920 /\ nv cam = 1200 /\
     has_shape (K cam) 3 3).
Proof.
  destruct native as [nw nh], input as [iw ih]. cbn [fst snd].
  assert (Hzero : nw = 0 \/ nh = 0 ->
                  init (nw, nh) (iw, ih) = Raise ZeroDivisionError).
  { intros Hz. unfold init. cbn [fst snd].
    destruct (Req_dec_T nw 0) as [-> | Hw].
    - rewrite py_div_zero. reflexivity.
    - destruct Hz as [Hz | ->]; [contradiction|].
      rewrite (py_div_ok _ _ Hw), bind_Ok, py_div_zero. reflexivity. }
  destruct (Req_dec_T nw 0) as [Hw | Hw];
    [|destruct (Req_dec_T nh 0) as [Hh | Hh]].
  - pose proof (Hzero (or_introl Hw)) as Hraise. rewrite Hraise.
    split; [split; [intros _; left; exact Hw | reflexivity]|].
    split; [split; [intros [Hw' _]; contradiction | intros [cam Hcam]; discriminate]|].
    intros cam Hcam. discriminate.
  - pose proof (Hzero (or_intror Hh)) as Hraise. rewrite Hraise.
    split; [split; [intros _; right; exact Hh | reflexivity]|].
    split; [split; [intros [_ Hh']; contradiction | intros [cam Hcam]; discriminate]|].
    intros cam Hcam. discriminate.
  - rewrite (Camera_init_run nw nh iw ih Hw Hh).
    split; [split; [discriminate | intros [Hz | Hz]; contradiction]|].
    split; [split; [intros _; eexists; reflexivity | intros _; split; assumption]|].
    intros cam Hcam. injection Hcam as <-. cbn [input_size nu nv K].
    repeat split; repeat constructor.
Qed.

Lemma Camera_init_zero_division_witness :
  (exists cam, init (1920, 1200) (256, 256) = Ok cam) /\
  init (0, 1200) (256, 256) = Raise ZeroDivisionError.
Proof.
  destruct (Camera_init_zero_division (1920, 1200) (256, 256)) as (_ & [H _] & _).
  destruct (Camera_init_zero_division (0, 1200) (256, 256)) as ([_ H0] & _).
  split.
  - apply H. cbn [fst snd]. split; lra.
  - apply H0. left. reflexivity.
Defined.

(** X14.  The camera and the projector together: the camera built for a
    non-zero native size has a 3×3 matrix with last row [[0, 0, 1]], and a
    point on the optical axis, at any non-zero depth, is imaged at its
    principal point [(input_w/native_w · 960, input_h/native_h · 600)]. *)
Theorem Camera_projects_axis_to_principal_point
    (native_w native_h input_w input_h w Z tz : R) :
  native_w <> 0 -> native_h <> 0 -> w <> 0 -> Z + tz <> 0 ->
  exists cam,
    init (native_w, native_h) (input_w, input_h) = Ok cam /\
    has_shape (K cam) 3 3 /\ rows (K cam) !! 2%nat = Some [0; 0; 1] /\
    project [w; 0; 0; 0] [0; 0; tz] (K cam) (Array2 4 [[0; 0; Z; 1]]) =
    Ok ([input_w / native_w * 960], [input_h / native_h * 600]).
Proof.
  intros Hw Hh Hq Hdepth. eexists.
  split; [apply Camera_init_run; assumption|]. cbn [K].
  split; [repeat split; repeat constructor|].
  split; [reflexivity|].
  rewrite (project_scalar_explicit w 0 0 tz 0 0 Z 1) by (assumption || lra).
  entries_by ltac:(first [ring | field; repeat split; lra]).
Qed.

Lemma Camera_projects_axis_to_principal_point_witness :
  exists cam,
    init (1920, 1200) (256, 256) = Ok cam /\
    project [1; 0; 0; 0] [0; 0; 10] (K cam) (Array2 4 [[0; 0; 0; 1]]) =
    Ok ([256 / 1920 * 960], [256 / 1200 * 600]).
Proof.
  destruct (Camera_projects_axis_to_principal_point 1920 1200 256 256 1 0 10)
    as (cam & H1 & _ & _ & H2); try lra.
  exists cam. split; assumption.
Defined.

End CameraMore.

(** *** The axis rescaling helper *)

(** X15.  When the same array is given for both arguments, every tip is
    rescaled twice, one rescaling after the other: entry [i] in 1..3 ends
    as [(t - original[0]) * factor + original[0]] where [t] is
    [(original[i] - original[0]) * factor + original[0]], and entry 0 is
    unchanged. *)
Theorem scalePoseVector_aliased (h : heap) (a : ref) (xs : list R) (factor : R) :
  h !! a = Some xs -> length xs = 4%nat ->
  exists xs',
    scalePoseVector a a factor h = (<[a := xs']> h, Ok (a, a)) /\
    xs' = rescaled factor (rescaled factor xs) /\
    length xs' = 4%nat /\
    xs' !! 0%nat = xs !! 0%nat /\
    forall i, (1 <= i <= 3)%nat ->
      xs' !! i =
      Some (((nth i xs 0 - nth 0 xs 0) * factor + nth 0 xs 0 - nth 0 xs 0) * factor
            + nth 0 xs 0).
Proof.
  intros Hx Hlen.
  destruct (length4_inv xs Hlen) as (x0 & x1 & x2 & x3 & ->).
  exists (rescaled factor (rescaled factor [x0; x1; x2; x3])).
  split; [exact (scalePoseVector_same_array h a factor x0 x1 x2 x3 Hx)|].
  do 3 (split; [reflexivity|]).
  intros i Hi.
  assert (Hcases : i = 1%nat \/ i = 2%nat \/ i = 3%nat) by lia.
  destruct Hcases as [-> | [-> | ->]]; reflexivity.
Qed.

Lemma scalePoseVector_aliased_witness :
  exists xs',
    scalePoseVector 0 0 2 heap_example = (<[0%nat := xs']> heap_example, Ok (0%nat, 0%nat)) /\
    xs' = rescaled 2 (rescaled 2 [0; 1; 2; 3]).
Proof.
  destruct (scalePoseVector_aliased heap_example 0 [0; 1; 2; 3] 2)
    as (xs' & H1 & H2 & _).
  - unfold heap_example. rewrite lookup_insert_ne by discriminate.
    apply lookup_insert_eq.
  - reflexivity.
  - exists xs'. split; assumption.
Defined.

Lemma scalePoseVector_run_long (h : heap) (xa ya : ref) (factor : R)
    (x0 x1 x2 x3 y0 y1 y2 y3 : R) (rx ry : list R) :
  xa <> ya ->
  h !! xa = Some (x0 :: x1 :: x2 :: x3 :: rx) ->
  h !! ya = Some (y0 :: y1 :: y2 :: y3 :: ry) ->
  scalePoseVector xa ya factor h =
  (<[ya := rescaled factor [y0; y1; y2; y3] ++ ry]>
     (<[xa := rescaled factor [x0; x1; x2; x3] ++ rx]> h), Ok (xa, ya)).
Proof.
  intros Hne Hx Hy. unfold scalePoseVector. cbn [seq for_each].
  erewrite bind_run; [reflexivity|].
  erewrite bind_run; [|
    erewrite bind_run; [| eapply rescale_entry_run; [exact Hx | reflexivity | reflexivity]];
    eapply rescale_entry_run;
      [rewrite lookup_insert_ne by congruence; exact Hy | reflexivity | reflexivity]].
  erewrite bind_run; [|
    erewrite bind_run; [| eapply rescale_entry_run;
      [rewrite lookup_insert_ne by congruence; apply lookup_insert_eq | reflexivity | reflexivity]];
    eapply rescale_entry_run;
      [rewrite lookup_insert_ne by congruence; rewrite lookup_insert_eq; reflexivity | reflexivity | reflexivity]].
  erewrite bind_run; [|
    erewrite bind_run; [| eapply rescale_entry_run;
      [rewrite lookup_insert_ne by congruence; apply lookup_insert_eq | reflexivity | reflexivity]];
    eapply rescale_entry_run;
      [rewrite lookup_insert_ne by congruence; rewrite lookup_insert_eq; reflexivity | reflexivity | reflexivity]].
  unfold ret. f_equal. cbn [list_insert insert rescaled app].
  apply map_eq. intros k.
  destruct (decide (k = ya)) as [->|Hky]; [|destruct (decide (k = xa)) as [->|Hkx]];
    repeat first [rewrite lookup_insert_eq | rewrite lookup_insert_ne by congruence];
    reflexivity.
Qed.

Lemma length_ge4_inv {A} (l : list A) :
  (4 <= length l)%nat ->
  exists a b c d rest, l = a :: b :: c :: d :: rest.
Proof.
  destruct l as [|a [|b [|c [|d rest]]]]; cbn [length]; intros H; try lia.
  eauto 6.
Qed.

(** X17.  The helper touches nothing but the tips: on two distinct arrays
    of at least 4 entries, entries 1 to 3 of both are rescaled, their
    entries from index 4 on are kept, and no other array of the store
    changes. *)
Theorem scalePoseVector_frame (h : heap) (xa ya : ref) (xs ys : list R)
    (factor : R) :
  xa <> ya -> h !! xa = Some xs -> h !! ya = Some ys ->
  (4 <= length xs)%nat -> (4 <= length ys)%nat ->
  exists h',
    scalePoseVector xa ya factor h = (h', Ok (xa, ya)) /\
    h' !! xa = Some (rescaled factor (take 4 xs) ++ drop 4 xs) /\
    h' !! ya = Some (rescaled factor (take 4 ys) ++ drop 4 ys) /\
    forall z, z <> xa -> z <> ya -> h' !! z = h !! z.
Proof.
  intros Hne Hx Hy Hlx Hly.
  destruct (length_ge4_inv xs Hlx) as (x0 & x1 & x2 & x3 & rx & ->).
  destruct (length_ge4_inv ys Hly) as (y0 & y1 & y2 & y3 & ry & ->).
  eexists. split; [exact (scalePoseVector_run_long h xa ya factor _ _ _ _ _ _ _ _ rx ry Hne Hx Hy)|].
  cbn [take drop]. split; [|split].
  - rewrite lookup_insert_ne by congruence. apply lookup_insert_eq.
  - apply lookup_insert_eq.
  - intros z Hzx Hzy. rewrite !lookup_insert_ne by congruence. reflexivity.
Qed.

Lemma scalePoseVector_frame_witness :
  exists h',
    scalePoseVector 0 1 0.5
      (<[2%nat := [7; 7]]> (<[1%nat := [10; 11; 12; 14; 99]]>
         (<[0%nat := [0; 1; 2; 3]]> ∅))) = (h', Ok (0%nat, 1%nat)) /\
    h' !! 2%nat = Some [7; 7].
Proof.
  destruct (scalePoseVector_frame
              (<[2%nat := [7; 7]]> (<[1%nat := [10; 11; 12; 14; 99]]>
                 (<[0%nat := [0; 1; 2; 3]]> ∅)))
              0 1 [0; 1; 2; 3] [10; 11; 12; 14; 99] 0.5)
    as (h' & H1 & _ & _ & H2).
  - discriminate.
  - rewrite !lookup_insert_ne by discriminate. apply lookup_insert_eq.
  - rewrite lookup_insert_ne by discriminate. apply lookup_insert_eq.
  - cbn [length]. lia.
  - cbn [length]. lia.
  - exists h'. split; [exact H1|].
    rewrite (H2 2%nat) by discriminate. apply lookup_insert_eq.
Defined.

Lemma load_out_of_range (h : heap) (a : ref) (arr : list R) (i : nat) :
  h !! a = Some arr -> (length arr <= i)%nat ->
  load a i h = (h, Raise IndexError).
Proof.
  intros Ha Hi. unfold load, getitem. rewrite Ha.
  rewrite (lookup_ge_None_2 arr i Hi). reflexivity.
Qed.

Lemma rescale_entry_out_of_range (h : heap) (a : ref) (arr : list R) (i : nat)
    (factor : R) :
  h !! a = Some arr -> (length arr <= i)%nat ->
  rescale_entry a i factor h = (h, Raise IndexError).
Proof.
  intros Ha Hi. unfold rescale_entry.
  apply bind_raise. apply (load_out_of_range h a arr i Ha Hi).
Qed.

(** X18.  Arrays that are too short.  When the first array has at most one
    entry, [IndexError] is raised and the store is unchanged.  When the
    first array is long enough and the second has at most one entry,
    [IndexError] is raised after entry 1 of the first array has been
    rescaled: the store keeps that write. *)
Theorem scalePoseVector_short_arrays (h : heap) (xa ya : ref) (xs ys : list R)
    (factor : R) :
  h !! xa = Some xs -> h !! ya = Some ys ->
  ((length xs <= 1)%nat ->
   scalePoseVector xa ya factor h = (h, Raise IndexError)) /\
  ((2 <= length xs)%nat -> (length ys <= 1)%nat -> xa <> ya ->
   scalePoseVector xa ya factor h =
   (<[xa := <[1%nat := (nth 1 xs 0 - nth 0 xs 0) * factor + nth 0 xs 0]> xs]> h,
    Raise IndexError)).
Proof.
  intros Hx Hy. split.
  - intros Hlen. unfold scalePoseVector. cbn [seq for_each].
    apply bind_raise. apply bind_raise. apply bind_raise.
    apply (rescale_entry_out_of_range h xa xs 1 factor Hx Hlen).
  - intros Hlx Hly Hne. unfold scalePoseVector. cbn [seq for_each].
    destruct xs as [|x0 [|x1 rx]]; cbn [length] in Hlx; try lia.
    apply bind_raise. apply bind_raise.
    erewrite bind_run;
      [| eapply rescale_entry_run; [exact Hx | reflexivity | reflexivity]].
    cbn [nth list_insert insert].
    eapply rescale_entry_out_of_range; [|exact Hly].
    rewrite lookup_insert_ne by congruence. exact Hy.
Qed.

Lemma scalePoseVector_short_arrays_witness :
  scalePoseVector 0 1 2 (<[1%nat := [5]]> (<[0%nat := [0; 1; 2; 3]]> ∅)) =
  (<[0%nat := [0; (1 - 0) * 2 + 0; 2; 3]]>
     (<[1%nat := [5]]> (<[0%nat := [0; 1; 2; 3]]> ∅)), Raise IndexError).
Proof.
  apply (scalePoseVector_short_arrays
           (<[1%nat := [5]]> (<[0%nat := [0; 1; 2; 3]]> ∅)) 0 1 [0; 1; 2; 3] [5] 2).
  - rewrite lookup_insert_ne by discriminate. apply lookup_insert_eq.
  - apply lookup_insert_eq.
  - cbn [length]. lia.
  - cbn [length]. lia.
  - discriminate.
Defined.

(** *** The dataset index: other splits, errors and partial states *)

Section DatasetMore.
Import Dataset DatasetExt.
#[local] Close Scope R_scope.

Ltac step_getattr :=
  erewrite bind_run;
  [| unfold get_train, get_sample_ids, get_labels;
     erewrite bind_run;
     [| apply get_attr_run; cbn [fst snd];
        repeat first [ apply lookup_insert_eq
                     | rewrite lookup_insert_ne by discriminate ] ];
     reflexivity ].

Ltac solve_lookup :=
  repeat first [ apply lookup_insert_eq
               | rewrite lookup_insert_ne by discriminate ].

Lemma mapM_filename_named (label_list : list dict) :
  Forall named label_list ->
  exists ids, mapM (fun label => dict_get label "filename") label_list = Ok ids /\
              Forall2 id_of label_list ids.
Proof.
  induction 1 as [|label l [id Hid] _ (ids & Hids & Hall)].
  - exists []. split; [reflexivity | constructor].
  - exists (id :: ids). split.
    + rewrite mapM_cons, Hids. unfold dict_get. rewrite Hid. reflexivity.
    + constructor; assumption.
Qed.

Lemma valid_split_cases (split : string) :
  split ∈ valid_splits <-> split = "train" \/ split = "test" \/ split = "real_test".
Proof.
  unfold valid_splits. rewrite !elem_of_union, !elem_of_singleton. tauto.
Qed.

Lemma unlabelled_split_run (split speed_root annotations_root : string)
    (input_size : R * R) (split_index sanity_check : option Z)
    (transform : option Transform) (w : world) (label_list : list dict) :
  split = "test" \/ split = "real_test" ->
  files w !! annotation_path annotations_root split = Some label_list ->
  Forall named label_list ->
  transform_ok transform ->
  exists w' self' ids,
    construct split speed_root annotations_root input_size split_index
              transform sanity_check w = (w', Ok self') /\
    self' !! "sample_ids" = Some (VIds ids) /\
    Forall2 id_of label_list ids /\
    self' !! "train" = Some (VBool false) /\
    self' !! "labels" = None /\
    len self' = Ok (length label_list).
Proof.
  intros Hsplit Hfile Hnamed Ht.
  destruct (mapM_filename_named label_list Hnamed) as (ids & Hids & Hall).
  assert (Hvalid : split ∈ valid_splits) by (apply valid_split_cases; tauto).
  unfold construct, init.
  rewrite decide_False by (intros H; exact (H Hvalid)).
  erewrite bind_run;
    [| unfold load_json; cbn [fst snd]; fold (annotation_path annotations_root split);
       rewrite Hfile; reflexivity].
  erewrite bind_run; [| unfold lift; rewrite Hids; reflexivity].
  erewrite bind_run; [| reflexivity].
  erewrite bind_run; [| reflexivity].
  cbv zeta. cbn [fst snd]. step_getattr.
  assert (Hnot : String.eqb split "train" = false)
    by (destruct Hsplit as [-> | ->]; reflexivity).
  rewrite Hnot.
  do 5 (erewrite bind_run; [| reflexivity]).
  cbn [fst snd].
  match goal with
  | |- context [ match transform with Some _ => _ | None => _ end ?s ] =>
      destruct (transform_stage_run transform input_size s Ht) as [sz Hsz]
  end.
  rewrite Hsz. cbn [fst snd].
  eexists _, _, ids. split; [reflexivity|].
  assert (Hs : forall m : gmap string value,
            (<["input_size" := VSize sz]>
               (<["axes_vertices" := VArray axes_vertices_const]>
                  (<["wireframe_vertices" := VArray wireframe_vertices_const]>
                     (<["transform" := VTransform transform]>
                        (<["image_root" := VStr (Py.os_path_join speed_root ["images"; split])]>
                           (<["train" := VBool false]>
                              (<["sample_ids" := VIds ids]> m)))))))
            !! "sample_ids" = Some (VIds ids)).
  { intros m. solve_lookup. }
  split; [apply Hs|]. split; [exact Hall|].
  split; [solve_lookup|]. split.
  - rewrite !lookup_insert_ne by discriminate. apply lookup_empty.
  - rewrite (len_ids _ _ (Hs ∅)). f_equal. symmetry.
    apply (Forall2_length _ _ _ Hall).
Qed.

(** X19.  The unlabelled splits.  For [test] and [real_test], whatever
    [split_index] and [sanity_check] are, the index lists every record of
    the file, in order, by its file name; the object is not in training
    mode and gets no [labels] attribute.  A record needs only its
    [filename]. *)
Theorem unlabelled_split_index (split speed_root annotations_root : string)
    (input_size : R * R) (split_index sanity_check : option Z)
    (transform : option Transform) (w : world) (label_list : list dict) :
  split = "test" \/ split = "real_test" ->
  files w !! annotation_path annotations_root split = Some label_list ->
  Forall named label_list ->
  transform_ok transform ->
  exists w' self' ids,
    construct split speed_root annotations_root input_size split_index
              transform sanity_check w = (w', Ok self') /\
    self' !! "sample_ids" = Some (VIds ids) /\
    Forall2 id_of label_list ids /\
    self' !! "train" = Some (VBool false) /\
    self' !! "labels" = None /\
    len self' = Ok (length label_list).
Proof. apply unlabelled_split_run. Qed.

Lemma unlabelled_split_index_witness :
  exists w' self',
    construct "test" "" "ann" (256%R, 256%R) (Some 1%Z) None (Some 0%Z)
              test_world_example = (w', Ok self') /\
    len self' = Ok 2%nat.
Proof.
  destruct (unlabelled_split_index "test" "" "ann" (256%R, 256%R) (Some 1%Z)
              (Some 0%Z) None test_world_example
              [<["filename" := JStr "img7.jpg"]> ∅;
               <["filename" := JStr "img8.jpg"]> ∅])
    as (w' & self' & ids & H1 & _ & _ & _ & _ & H2).
  - left. reflexivity.
  - apply lookup_insert_eq.
  - repeat constructor; eexists; apply lookup_insert_eq.
  - exact I.
  - exists w', self'. split; assumption.
Defined.

(** X20.  A missing annotation file.  For a valid split whose file does not
    exist, [__init__] raises [FileNotFoundError]: the open has been tried,
    and no attribute of the object has been set. *)
Theorem missing_annotation_file (split speed_root annotations_root : string)
    (input_size : R * R) (split_index sanity_check : option Z)
    (transform : option Transform) (w : world) (self : attrs) :
  split ∈ valid_splits ->
  files w !! annotation_path annotations_root split = None ->
  init split speed_root annotations_root input_size split_index transform
       sanity_check (w, self) =
  ((World (files w) (opened w ++ [annotation_path annotations_root split]), self),
   Raise FileNotFoundError).
Proof.
  intros Hvalid Hfile. unfold init.
  rewrite decide_False by (intros H; exact (H Hvalid)).
  apply bind_raise. unfold load_json. cbn [fst snd].
  fold (annotation_path annotations_root split). rewrite Hfile. reflexivity.
Qed.

Lemma missing_annotation_file_witness :
  init "train" "" "ann" (256%R, 256%R) None None None (test_world_example, ∅) =
  ((World (files test_world_example) ([] ++ ["ann/train.json"]), ∅),
   Raise FileNotFoundError).
Proof.
  apply (missing_annotation_file "train" "" "ann" (256%R, 256%R) None None None
           test_world_example ∅).
  - apply train_is_valid.
  - unfold test_world_example. cbn [files].
    change (annotation_path "ann" "train") with "ann/train.json".
    rewrite lookup_insert_ne by discriminate. apply lookup_empty.
Defined.

Lemma slice_to_beyond {A} (l : list A) (k : Z) :
  (Z.of_nat (length l) <= k)%Z -> Py.slice_to l k = l.
Proof.
  intros Hk. unfold Py.slice_to. rewrite decide_False by lia.
  rewrite Z.min_r by lia. rewrite Nat2Z.id. apply firstn_all.
Qed.

Lemma slice_to_negative {A} (l : list A) (k : Z) :
  (k < 0)%Z -> Py.slice_to l k = take (length l - Z.to_nat (- k)) l.
Proof.
  intros Hk. unfold Py.slice_to. rewrite decide_True by lia.
  assert (H : Z.to_nat (Z.max 0 (k + Z.of_nat (length l))) =
              (length l - Z.to_nat (- k))%nat) by lia.
  rewrite H. reflexivity.
Qed.

(** X21.  Bounds of [split_index].  On the train split without overfit
    index: a [split_index] of [N] or more keeps all [N] records; a negative
    one, [-j], drops the last [j] records (all of them when [j >= N]). *)
Theorem train_index_split_bounds (speed_root annotations_root : string)
    (input_size : R * R) (transform : option Transform) (w : world)
    (label_list : list dict) (k : Z) :
  files w !! Py.os_path_join annotations_root ["train.json"] = Some label_list ->
  Forall labelled label_list ->
  transform_ok transform ->
  (Z.of_nat (length label_list) <= k \/ k < 0)%Z ->
  let kept := if decide (k < 0)%Z
              then (length label_list - Z.to_nat (- k))%nat
              else length label_list in
  exists w' self' ids labels,
    construct "train" speed_root annotations_root input_size (Some k)
              transform None w = (w', Ok self') /\
    self' !! "sample_ids" = Some (VIds ids) /\
    self' !! "labels" = Some (VLabels labels) /\
    Forall2 id_of (take kept label_list) ids /\
    Forall2 label_of (take kept label_list) labels /\
    len self' = Ok kept.
Proof.
  intros Hfile Hwf Ht Hk kept.
  destruct (mapM_filename label_list Hwf) as (ids & Hids & Hall_ids).
  destruct (mapM_make_label label_list Hwf) as (labels & Hlabels & Hall_labels).
  pose proof (Forall2_length _ _ _ Hall_ids) as Hlen_ids.
  pose proof (Forall2_length _ _ _ Hall_labels) as Hlen_labels.
  destruct (init_train_truncate speed_root annotations_root input_size (Some k)
              transform w ∅ label_list ids labels Hfile Hids Hlabels Ht)
    as (self' & Hrun & Hs & Hl & _).
  cbv zeta in Hs, Hl.
  assert (Hsl : forall (A : Type) (l : list A),
            length l = length label_list -> Py.slice_to l k = take kept l).
  { intros A l Hlen. subst kept. destruct (decide (k < 0)%Z) as [Hneg | Hpos].
    - rewrite slice_to_negative by exact Hneg. rewrite Hlen. reflexivity.
    - rewrite slice_to_beyond by lia. rewrite <- Hlen. symmetry. apply firstn_all. }
  rewrite (Hsl _ ids) in Hs by (symmetry; exact Hlen_ids).
  rewrite (Hsl _ labels) in Hl by (symmetry; exact Hlen_labels).
  eexists _, self', _, _. split; [apply construct_ok, Hrun|].
  split; [exact Hs|]. split; [exact Hl|].
  split; [apply Forall2_take, Hall_ids|].
  split; [apply Forall2_take, Hall_labels|].
  rewrite (len_ids _ _ Hs). f_equal. rewrite length_take.
  subst kept. destruct (decide (k < 0)%Z); lia.
Qed.

Lemma train_index_split_bounds_witness :
  exists w' self',
    construct "train" "" "" (256%R, 256%R) (Some (-2)%Z) None None world_example =
      (w', Ok self') /\
    len self' = Ok 1%nat.
Proof.
  destruct (train_index_split_bounds "" "" (256%R, 256%R) None world_example _ (-2)%Z
              world_example_train)
    as (w' & self' & ids & labels & H1 & _ & _ & _ & _ & H2).
  - repeat constructor; apply record_example_labelled.
  - exact I.
  - right. lia.
  - exists w', self'. split; assumption.
Defined.

Lemma init_train_overfit_index (speed_root annotations_root : string)
    (input_size : R * R) (split_index : option Z)
    (transform : option Transform) (w : world) (self : attrs)
    (label_list : list dict) (ids : list json) (labels : list dict)
    (i : Z) (id : json) (lab : dict) :
  files w !! Py.os_path_join annotations_root ["train.json"] = Some label_list ->
  mapM (fun label => dict_get label "filename") label_list = Ok ids ->
  mapM make_label label_list = Ok labels ->
  transform_ok transform ->
  Py.index ids i = Ok id -> Py.index labels i = Ok lab ->
  exists self',
    init "train" speed_root annotations_root input_size split_index transform
         (Some i) (w, self) =
      ((World (files w)
              (opened w ++ [Py.os_path_join annotations_root ["train.json"]]),
        self'), Ok tt) /\
    self' !! "sample_ids" = Some (VIds [id]) /\
    self' !! "labels" = Some (VLabels [lab]).
Proof.
  intros Hfile Hids Hlabels Ht Hid Hlab. unfold init.
  rewrite decide_False by (intros H; exact (H train_is_valid)).
  erewrite bind_run;
    [| unfold load_json; cbn [fst snd];
       change ("train" +:+ ".json") with "train.json"; rewrite Hfile; reflexivity].
  erewrite bind_run; [| unfold lift; rewrite Hids; reflexivity].
  erewrite bind_run; [| reflexivity].
  erewrite bind_run; [| reflexivity].
  cbv zeta. cbn [fst snd]. step_getattr. cbn [String.eqb Ascii.eqb Bool.eqb].
  erewrite bind_run;
    [| erewrite bind_run; [| unfold lift; rewrite Hlabels; reflexivity];
       erewrite bind_run; [| reflexivity];
       step_getattr;
       erewrite bind_run; [| unfold lift; rewrite Hid; reflexivity];
       erewrite bind_run; [| reflexivity];
       step_getattr;
       erewrite bind_run; [| unfold lift; rewrite Hlab; reflexivity];
       reflexivity ].
  do 4 (erewrite bind_run; [| reflexivity]).
  cbn [fst snd].
  match goal with
  | |- context [ match transform with Some _ => _ | None => _ end ?s ] =>
      destruct (transform_stage_run transform input_size s Ht) as [sz Hsz]
  end.
  eexists. split.
  - etransitivity; [exact Hsz|]. reflexivity.
  - cbn [fst snd]. split; solve_lookup.
Qed.

Lemma index_negative {A} (l : list A) (i : Z) (x : A) :
  (i < 0)%Z -> (0 <= i + Z.of_nat (length l))%Z ->
  l !! Z.to_nat (i + Z.of_nat (length l)) = Some x -> Py.index l i = Ok x.
Proof.
  intros Hi Hlow Hx. unfold Py.index.
  pose proof (lookup_lt_Some _ _ _ Hx) as Hlt.
  destruct (decide (i < 0)%Z); [|lia].
  rewrite decide_True by lia. unfold getitem. rewrite Hx. reflexivity.
Qed.

Lemma index_out_of_range {A} (l : list A) (i : Z) :
  (Z.of_nat (length l) <= i \/ i < - Z.of_nat (length l))%Z ->
  Py.index l i = Raise IndexError.
Proof.
  intros Hi. unfold Py.index.
  destruct (decide (i < 0)%Z); rewrite decide_False by lia; reflexivity.
Qed.

(** X22.  A negative overfit index counts from the end: with
    [sanity_check = -j], [1 <= j <= N], the index holds exactly the one
    sample of record [N - j], whatever [split_index]. *)
Theorem train_index_overfit_from_end (speed_root annotations_root : string)
    (input_size : R * R) (split_index : option Z)
    (transform : option Transform) (w : world) (label_list : list dict) (j : Z) :
  files w !! Py.os_path_join annotations_root ["train.json"] = Some label_list ->
  Forall labelled label_list ->
  transform_ok transform ->
  (1 <= j <= Z.of_nat (length label_list))%Z ->
  exists w' self' record id lab,
    construct "train" speed_root annotations_root input_size split_index
              transform (Some (- j)%Z) w = (w', Ok self') /\
    label_list !! (length label_list - Z.to_nat j)%nat = Some record /\
    id_of record id /\ label_of record lab /\
    self' !! "sample_ids" = Some (VIds [id]) /\
    self' !! "labels" = Some (VLabels [lab]) /\
    len self' = Ok 1%nat.
Proof.
  intros Hfile Hwf Ht Hj.
  destruct (mapM_filename label_list Hwf) as (ids & Hids & Hall_ids).
  destruct (mapM_make_label label_list Hwf) as (labels & Hlabels & Hall_labels).
  pose proof (Forall2_length _ _ _ Hall_ids) as Hlen_ids.
  pose proof (Forall2_length _ _ _ Hall_labels) as Hlen_labels.
  destruct (lookup_lt_is_Some_2 label_list (length label_list - Z.to_nat j))
    as [record Hrec]; [lia|].
  destruct (Forall2_lookup_l _ _ _ _ _ Hall_ids Hrec) as (id & Hid & Hid_of).
  destruct (Forall2_lookup_l _ _ _ _ _ Hall_labels Hrec) as (lab & Hlab & Hlab_of).
  assert (Hpos : forall n : nat, n = length label_list ->
            Z.to_nat (- j + Z.of_nat n) = (length label_list - Z.to_nat j)%nat)
    by (intros n ->; lia).
  destruct (init_train_overfit_index speed_root annotations_root input_size
              split_index transform w ∅ label_list ids labels (- j)%Z id lab
              Hfile Hids Hlabels Ht)
    as (self' & Hrun & Hs & Hl).
  - apply index_negative; [lia | lia |].
    rewrite (Hpos _ (eq_sym Hlen_ids)). exact Hid.
  - apply index_negative; [lia | lia |].
    rewrite (Hpos _ (eq_sym Hlen_labels)). exact Hlab.
  - eexists _, self', record, id, lab. split; [apply construct_ok, Hrun|].
    repeat (split; [assumption|]). apply (len_ids _ _ Hs).
Qed.

Lemma train_index_overfit_from_end_witness :
  exists w' self',
    construct "train" "" "" (256%R, 256%R) None None (Some (- 1)%Z) world_example =
      (w', Ok self') /\
    len self' = Ok 1%nat.
Proof.
  destruct (train_index_overfit_from_end "" "" (256%R, 256%R) None None
              world_example _ 1%Z world_example_train)
    as (w' & self' & record & id & lab & H1 & _ & _ & _ & _ & _ & H2).
  - repeat constructor; apply record_example_labelled.
  - exact I.
  - cbn [length]. lia.
  - exists w', self'. split; assumption.
Defined.

(** X23.  An overfit index out of range.  With [sanity_check = i],
    [i >= N] or [i < -N], the train split raises [IndexError] and no
    dataset is returned; the object under construction is left with its
    [sample_ids] (all of them), [train] and [labels] (all of them)
    attributes set. *)
Theorem train_index_overfit_out_of_range (speed_root annotations_root : string)
    (input_size : R * R) (split_index : option Z)
    (transform : option Transform) (w : world) (self : attrs)
    (label_list : list dict) (i : Z) :
  files w !! Py.os_path_join annotations_root ["train.json"] = Some label_list ->
  Forall labelled label_list ->
  (Z.of_nat (length label_list) <= i \/ i < - Z.of_nat (length label_list))%Z ->
  exists w' ids labels,
    Forall2 id_of label_list ids /\ Forall2 label_of label_list labels /\
    init "train" speed_root annotations_root input_size split_index transform
         (Some i) (w, self) =
      ((w', <["labels" := VLabels labels]>
              (<["train" := VBool true]> (<["sample_ids" := VIds ids]> self))),
       Raise IndexError) /\
    construct "train" speed_root annotations_root input_size split_index
              transform (Some i) w = (w', Raise IndexError).
Proof.
  intros Hfile Hwf Hi.
  destruct (mapM_filename label_list Hwf) as (ids & Hids & Hall_ids).
  destruct (mapM_make_label label_list Hwf) as (labels & Hlabels & Hall_labels).
  pose proof (Forall2_length _ _ _ Hall_ids) as Hlen_ids.
  assert (Hrun : forall self0 : attrs,
    init "train" speed_root annotations_root input_size split_index transform
         (Some i) (w, self0) =
      ((World (files w)
              (opened w ++ [Py.os_path_join annotations_root ["train.json"]]),
        <["labels" := VLabels labels]>
          (<["train" := VBool true]> (<["sample_ids" := VIds ids]> self0))),
       Raise IndexError)).
  { intros self0. unfold init.
    rewrite decide_False by (intros H; exact (H train_is_valid)).
    erewrite bind_run;
      [| unfold load_json; cbn [fst snd];
         change ("train" +:+ ".json") with "train.json"; rewrite Hfile; reflexivity].
    erewrite bind_run; [| unfold lift; rewrite Hids; reflexivity].
    erewrite bind_run; [| reflexivity].
    erewrite bind_run; [| reflexivity].
    cbv zeta. cbn [fst snd]. step_getattr. cbn [String.eqb Ascii.eqb Bool.eqb].
    apply bind_raise.
    erewrite bind_run; [| unfold lift; rewrite Hlabels; reflexivity].
    erewrite bind_run; [| reflexivity].
    step_getattr. apply bind_raise.
    unfold lift. rewrite index_out_of_range by (rewrite <- Hlen_ids; exact Hi).
    reflexivity. }
  eexists _, ids, labels. split; [exact Hall_ids|]. split; [exact Hall_labels|].
  split; [apply Hrun|]. unfold construct. rewrite Hrun. reflexivity.
Qed.

Lemma train_index_overfit_out_of_range_witness :
  exists w',
    construct "train" "" "" (256%R, 256%R) None None (Some 3%Z) world_example =
      (w', Raise IndexError).
Proof.
  destruct (train_index_overfit_out_of_range "" "" (256%R, 256%R) None None
              world_example ∅ _ 3%Z world_example_train)
    as (w' & ids & labels & _ & _ & _ & H).
  - repeat constructor; apply record_example_labelled.
  - left. cbn [length]. lia.
  - exists w'. exact H.
Defined.

Lemma dict_get_some (d : dict) (key : string) (v : json) :
  d !! key = Some v -> dict_get d key = Ok v.
Proof. intros H. unfold dict_get. rewrite H. reflexivity. Qed.

Lemma dict_get_none (d : dict) (key : string) :
  d !! key = None -> dict_get d key = Raise KeyError.
Proof. intros H. unfold dict_get. rewrite H. reflexivity. Qed.

Lemma mapM_filename_missing (label_list : list dict) :
  Exists (fun label => label !! "filename" = None) label_list ->
  mapM (fun label => dict_get label "filename") label_list = Raise KeyError.
Proof.
  induction label_list as [|label l IH]; intros Hex; [inversion Hex|].
  rewrite mapM_cons.
  destruct (label !! "filename") as [id|] eqn:Hid.
  - rewrite (dict_get_some _ _ _ Hid), bind_Ok.
    inversion Hex as [? ? Hnone | ? ? Hl]; subst; [congruence|].
    rewrite (IH Hl). reflexivity.
  - rewrite (dict_get_none _ _ Hid). reflexivity.
Qed.

Lemma make_label_cases (label : dict) :
  (exists lab, make_label label = Ok lab) \/ make_label label = Raise KeyError.
Proof.
  unfold make_label, dict_get.
  destruct (label !! "q_vbs2tango"); [|right; reflexivity].
  destruct (label !! "r_Vo2To_vbs_true"); [|right; reflexivity].
  destruct (label !! "bbox"); [|right; reflexivity].
  destruct (label !! "wireframe"); [|right; reflexivity].
  left. eexists. reflexivity.
Qed.

Lemma mapM_make_label_missing (label_list : list dict) :
  Exists (fun label => make_label label = Raise KeyError) label_list ->
  mapM make_label label_list = Raise KeyError.
Proof.
  induction label_list as [|label l IH]; intros Hex; [inversion Hex|].
  rewrite mapM_cons.
  destruct (make_label_cases label) as [[lab Hlab] | Hraise].
  - rewrite Hlab, bind_Ok.
    inversion Hex as [? ? Hnone | ? ? Hl]; subst; [congruence|].
    rewrite (IH Hl). reflexivity.
  - rewrite Hraise. reflexivity.
Qed.

(** X24.  A record without a key.  On the train split, when every record
    has its [filename] and some record lacks one of the four label keys,
    [__init__] raises [KeyError] after it has set the [sample_ids] and
    [train] attributes; when some record lacks [filename], on any valid
    split, it raises [KeyError] before setting any attribute. *)
Theorem record_missing_key (split speed_root annotations_root : string)
    (input_size : R * R) (split_index sanity_check : option Z)
    (transform : option Transform) (w : world) (self : attrs)
    (label_list : list dict) :
  split ∈ valid_splits ->
  files w !! annotation_path annotations_root split = Some label_list ->
  let w' := World (files w) (opened w ++ [annotation_path annotations_root split]) in
  (Exists (fun label => label !! "filename" = None) label_list ->
   init split speed_root annotations_root input_size split_index transform
        sanity_check (w, self) = ((w', self), Raise KeyError)) /\
  (split = "train" -> Forall named label_list ->
   Exists (fun label => make_label label = Raise KeyError) label_list ->
   exists ids,
     Forall2 id_of label_list ids /\
     init split speed_root annotations_root input_size split_index transform
          sanity_check (w, self) =
       ((w', <["train" := VBool true]> (<["sample_ids" := VIds ids]> self)),
        Raise KeyError)).
Proof.
  intros Hvalid Hfile w'. split.
  - intros Hex. unfold init.
    rewrite decide_False by (intros H; exact (H Hvalid)).
    erewrite bind_run;
      [| unfold load_json; cbn [fst snd];
         fold (annotation_path annotations_root split); rewrite Hfile; reflexivity].
    apply bind_raise. unfold lift. rewrite (mapM_filename_missing _ Hex). reflexivity.
  - intros -> Hnamed Hex.
    destruct (mapM_filename_named label_list Hnamed) as (ids & Hids & Hall).
    exists ids. split; [exact Hall|]. unfold init.
    rewrite decide_False by (intros H; exact (H Hvalid)).
    erewrite bind_run;
      [| unfold load_json; cbn [fst snd];
         fold (annotation_path annotations_root "train"); rewrite Hfile; reflexivity].
    erewrite bind_run; [| unfold lift; rewrite Hids; reflexivity].
    erewrite bind_run; [| reflexivity].
    erewrite bind_run; [| reflexivity].
    cbv zeta. cbn [fst snd]. step_getattr. cbn [String.eqb Ascii.eqb Bool.eqb].
    apply bind_raise. apply bind_raise.
    unfold lift. rewrite (mapM_make_label_missing _ Hex). reflexivity.
Qed.

Lemma record_missing_key_witness :
  exists ids,
    init "train" "" "" (256%R, 256%R) None None None (broken_world_example, ∅) =
      ((World (files broken_world_example) ([] ++ ["train.json"]),
        <["train" := VBool true]> (<["sample_ids" := VIds ids]> ∅)),
       Raise KeyError).
Proof.
  destruct (record_missing_key "train" "" "" (256%R, 256%R) None None None
              broken_world_example ∅
              [record_example "img1.jpg"; <["filename" := JStr "img2.jpg"]> ∅]
              train_is_valid) as [_ H].
  - apply lookup_insert_eq.
  - destruct (H eq_refl) as (ids & _ & Hrun).
    + repeat constructor; eexists; apply lookup_insert_eq.
    + apply Exists_cons_tl, Exists_cons_hd. reflexivity.
    + exists ids. exact Hrun.
Defined.

Lemma bind_ok_inv {S A B} (m : M S A) (f : A -> M S B) (s s' : S) (b : B) :
  bind m f s = (s', Ok b) ->
  exists s1 a, m s = (s1, Ok a) /\ f a s1 = (s', Ok b).
Proof.
  unfold bind. destruct (m s) as [s1 [a | e]]; intros H; [eauto | discriminate].
Qed.

Lemma setattr_inv (name : string) (v : value) (s s' : state) (u : unit) :
  setattr name v s = (s', Ok u) -> s' = (s.1, <[name := v]> s.2).
Proof. unfold setattr. intros H. injection H as <- _. reflexivity. Qed.

(** X25.  What every successful construction leaves.  Whenever [__init__]
    returns, for any split and any arguments, the split is valid, the
    transform (if any) has a first stage, and the object has its
    [image_root], [transform] and [input_size] attributes: the input size is
    the size of the first stage of the transform when there is one, and the
    [input_size] argument otherwise.  A transform without stages thus never
    lets the construction succeed. *)
Theorem init_success_attributes (split speed_root annotations_root : string)
    (input_size : R * R) (split_index sanity_check : option Z)
    (transform : option Transform) (w w' : world) (self self' : attrs) :
  init split speed_root annotations_root input_size split_index transform
       sanity_check (w, self) = ((w', self'), Ok tt) ->
  split ∈ valid_splits /\ transform_ok transform /\
  self' !! "image_root" =
    Some (VStr (Py.os_path_join speed_root ["images"; split])) /\
  self' !! "transform" = Some (VTransform transform) /\
  self' !! "input_size" =
    Some (VSize match transform with
                | Some t => match transforms t with
                            | stage :: _ => size stage
                            | [] => input_size
                            end
                | None => input_size
                end).
Proof.
  unfold init. intros H.
  destruct (decide (split ∉ valid_splits)) as [Hbad | Hvalid]; [discriminate|].
  split; [destruct (decide (split ∈ valid_splits)); [assumption | contradiction]|].
  apply bind_ok_inv in H as (s1 & label_list & _ & H).
  apply bind_ok_inv in H as (s2 & ids & _ & H).
  apply bind_ok_inv in H as (s3 & [] & _ & H).
  apply bind_ok_inv in H as (s4 & [] & _ & H).
  cbv zeta in H.
  apply bind_ok_inv in H as (s5 & train & _ & H).
  apply bind_ok_inv in H as (s6 & [] & _ & H).
  apply bind_ok_inv in H as (s7 & [] & H7 & H).
  apply bind_ok_inv in H as (s8 & [] & H8 & H).
  apply bind_ok_inv in H as (s9 & [] & H9 & H).
  apply bind_ok_inv in H as (s10 & [] & H10 & H).
  apply setattr_inv in H7, H8, H9, H10. subst s7 s8 s9 s10. cbn [fst snd] in H.
  destruct transform as [t|].
  - apply bind_ok_inv in H as (s11 & stage & Hstage & H).
    unfold lift in Hstage. injection Hstage as <- Hstage.
    apply setattr_inv in H. injection H as _ ->.
    unfold getitem in Hstage.
    destruct (transforms t) as [|st sts] eqn:Ht; [discriminate|].
    injection Hstage as ->.
    split; [cbn [transform_ok]; congruence|]. cbn [fst snd].
    repeat split; solve_lookup.
  - apply setattr_inv in H. injection H as _ ->.
    split; [exact I|]. cbn [fst snd]. repeat split; solve_lookup.
Qed.

Lemma world_example_labelled :
  Forall labelled [record_example "img1.jpg"; record_example "img2.jpg";
                   record_example "img3.jpg"].
Proof. repeat constructor; apply record_example_labelled. Qed.

Lemma init_success_attributes_witness :
  exists w' self',
    init "train" "" "" (256%R, 256%R) (Some 2%Z) None None (world_example, ∅) =
      ((w', self'), Ok tt) /\
    self' !! "input_size" = Some (VSize (256%R, 256%R)).
Proof.
  destruct (mapM_filename _ world_example_labelled) as (ids & Hids & _).
  destruct (mapM_make_label _ world_example_labelled) as (labels & Hlabels & _).
  destruct (init_train_truncate "" "" (256%R, 256%R) (Some 2%Z) None world_example ∅
              _ ids labels world_example_train Hids Hlabels I)
    as (self' & Hrun & _).
  eexists _, self'. split; [exact Hrun|].
  destruct (init_success_attributes _ _ _ _ _ _ _ _ _ _ _ Hrun)
    as (_ & _ & _ & _ & H).
  exact H.
Defined.

Lemma keeps_world_bind {A B} (m : M state A) (f : A -> M state B) :
  keeps_world m -> (forall a, keeps_world (f a)) -> keeps_world (bind m f).
Proof.
  intros Hm Hf s. unfold bind. specialize (Hm s).
  destruct (m s) as [s1 [a | e]]; cbn [fst] in *.
  - rewrite (Hf a s1). exact Hm.
  - exact Hm.
Qed.

Lemma keeps_world_lift {A} (r : result A) : keeps_world (lift (S := state) r).
Proof. intros s. reflexivity. Qed.

Lemma keeps_world_ret {A} (a : A) : keeps_world (ret (S := state) a).
Proof. intros s. reflexivity. Qed.

Lemma keeps_world_raise {A} (e : exn) : keeps_world (raise (S := state) (A := A) e).
Proof. intros s. reflexivity. Qed.

Lemma keeps_world_setattr (name : string) (v : value) :
  keeps_world (setattr name v).
Proof. intros s. reflexivity. Qed.

Lemma keeps_world_getattr (name : string) : keeps_world (getattr name).
Proof. intros s. unfold getattr. destruct (s.2 !! name); reflexivity. Qed.

Ltac keeps_world_tac :=
  repeat first
    [ apply keeps_world_lift
    | apply keeps_world_ret
    | apply keeps_world_raise
    | apply keeps_world_setattr
    | apply keeps_world_getattr
    | apply keeps_world_bind; [| intros ?]
    | match goal with
      | |- keeps_world (match ?x with _ => _ end) => destruct x
      end ].

(** X26.  The construction reads one file and writes none.  For a valid
    split and any arguments, whether [__init__] returns or raises, the file
    system it leaves has the same files and exactly one more opened path:
    the annotation file of the split. *)
Theorem init_opens_one_file (split speed_root annotations_root : string)
    (input_size : R * R) (split_index sanity_check : option Z)
    (transform : option Transform) (w : world) (self : attrs) :
  split ∈ valid_splits ->
  (init split speed_root annotations_root input_size split_index transform
        sanity_check (w, self)).1.1 =
  World (files w) (opened w ++ [annotation_path annotations_root split]).
Proof.
  intros Hvalid. unfold init.
  rewrite decide_False by (intros H; exact (H Hvalid)).
  fold (annotation_path annotations_root split).
  unfold bind at 1. unfold load_json at 1. cbn [fst snd].
  destruct (files w !! annotation_path annotations_root split) as [label_list|];
    [|reflexivity].
  match goal with
  | |- (?m ?s).1.1 = _ =>
      assert (Hk : keeps_world m);
      [| exact (Hk s)]
  end.
  cbv zeta. unfold get_train, get_sample_ids, get_labels.
  keeps_world_tac.
Qed.

Lemma init_opens_one_file_witness :
  (init "train" "" "" (256%R, 256%R) None None (Some 7%Z) (world_example, ∅)).1.1 =
  World (files world_example) ([] ++ ["train.json"]).
Proof.
  apply (init_opens_one_file "train" "" "" (256%R, 256%R) None (Some 7%Z) None
           world_example ∅ train_is_valid).
Defined.

End DatasetMore.

(** *** Loading the three annotation files *)

Section LoaderFacts.
Import Dataset DatasetExt Loader.
#[local] Close Scope R_scope.

Lemma outcome_bind_Done {A B} (a : A) (f : A -> outcome B) : (Done a ≫= f) = f a.
Proof. reflexivity. Qed.

Lemma getitem_setitem_eq (k : key) (v : dict) (d : pydict) :
  getitem k (setitem k v d) = Some v.
Proof.
  induction d as [|[k' v'] d IH]; cbn [setitem getitem].
  - destruct (key_eq_dec k k); [reflexivity | contradiction].
  - destruct (key_eq_dec k k') as [-> | Hne]; cbn [getitem].
    + destruct (key_eq_dec k' k'); [reflexivity | contradiction].
    + destruct (key_eq_dec k k'); [contradiction | exact IH].
Qed.

Lemma getitem_setitem_ne (k k0 : key) (v : dict) (d : pydict) :
  k <> k0 -> getitem k (setitem k0 v d) = getitem k d.
Proof.
  intros Hne. induction d as [|[k' v'] d IH]; cbn [setitem getitem].
  - destruct (key_eq_dec k k0); [contradiction | reflexivity].
  - destruct (key_eq_dec k0 k') as [-> | Hne']; cbn [getitem].
    + destruct (key_eq_dec k k'); [contradiction | reflexivity].
    + destruct (key_eq_dec k k'); [reflexivity | exact IH].
Qed.

Lemma getitem_store_other (k : key) (kvs : list (key * dict)) (d : pydict) :
  Forall (fun kv => kv.1 <> k) kvs ->
  getitem k (store_all d kvs) = getitem k d.
Proof.
  unfold store_all. intros Hall. revert d.
  induction Hall as [|[k' v'] kvs Hk _ IH]; intros d; cbn [foldl]; [reflexivity|].
  rewrite IH. cbn [fst snd] in *. apply getitem_setitem_ne.
  intros Heq. apply Hk. symmetry. exact Heq.
Qed.

Lemma getitem_store_last (k : key) (v : dict) (pre post : list (key * dict))
    (d : pydict) :
  Forall (fun kv => kv.1 <> k) post ->
  getitem k (store_all d (pre ++ (k, v) :: post)) = Some v.
Proof.
  intros Hpost. unfold store_all. rewrite foldl_app. cbn [foldl fst snd].
  fold (store_all (setitem k v (foldl (fun d kv => setitem kv.1 kv.2 d) d pre)) post).
  rewrite (getitem_store_other k post _ Hpost). apply getitem_setitem_eq.
Qed.

Lemma train_step_run (parts : gmap string (list json)) (labels : pydict)
    (record lab : dict) (id : json) (k : key) (ids0 : list json) :
  record !! "filename" = Some id -> hash_key id = Done k ->
  make_label record = Ok lab -> parts !! "train" = Some ids0 ->
  train_step (parts, labels) record =
  Done (<["train" := ids0 ++ [id]]> parts, setitem k lab labels).
Proof.
  intros Hid Hk Hmk Hparts. unfold train_step. cbn [fst snd].
  rewrite (dict_get_some _ _ _ Hid). cbn [of_result].
  rewrite outcome_bind_Done. unfold append_to. rewrite Hparts.
  rewrite outcome_bind_Done, Hmk. cbn [of_result].
  rewrite !outcome_bind_Done, Hk. reflexivity.
Qed.

Lemma test_step_run (name : string) (parts : gmap string (list json))
    (record : dict) (id : json) (ids0 : list json) :
  record !! "filename" = Some id -> parts !! name = Some ids0 ->
  test_step name parts record = Done (<[name := ids0 ++ [id]]> parts).
Proof.
  intros Hid Hparts. unfold test_step.
  rewrite (dict_get_some _ _ _ Hid). cbn [of_result].
  rewrite outcome_bind_Done. unfold append_to. rewrite Hparts. reflexivity.
Qed.

Lemma for_fold_train (l : list dict) :
  Forall labelled l ->
  Forall keyed l ->
  forall (parts : gmap string (list json)) (labels : pydict) (ids0 : list json),
    parts !! "train" = Some ids0 ->
    exists ids ks labs,
      Forall2 id_of l ids /\ Forall2 key_of l ks /\ Forall2 label_of l labs /\
      for_fold train_step (parts, labels) l =
      Done (<["train" := ids0 ++ ids]> parts, store_all labels (zip ks labs)).
Proof.
  intros Hlab Hkey. induction Hkey as [|record l (id & k & Hid & Hk) _ IH];
    intros parts labels ids0 Hparts.
  - exists [], [], []. repeat split; try constructor.
    cbn [for_fold zip_with store_all foldl]. rewrite app_nil_r.
    rewrite (insert_id _ _ _ Hparts). reflexivity.
  - inversion Hlab as [|? ? Hrec Hlab']; subst.
    destruct (make_label_ok record Hrec) as [lab Hmk].
    destruct (IH Hlab' (<["train" := ids0 ++ [id]]> parts)
                (setitem k lab labels) (ids0 ++ [id]))
      as (ids & ks & labs & Hids & Hks & Hlabs & Hrun);
      [apply lookup_insert_eq|].
    exists (id :: ids), (k :: ks), (lab :: labs).
    split; [constructor; assumption|].
    split; [constructor; [exists id; split; assumption | assumption]|].
    split; [constructor; assumption|].
    cbn [for_fold].
    rewrite (train_step_run parts labels record lab id k ids0 Hid Hk Hmk Hparts).
    rewrite outcome_bind_Done, Hrun. cbn [zip_with store_all foldl fst snd].
    rewrite insert_insert_eq, <- app_assoc. reflexivity.
Qed.

Lemma for_fold_test (name : string) (l : list dict) :
  Forall named l ->
  forall (parts : gmap string (list json)) (ids0 : list json),
    parts !! name = Some ids0 ->
    exists ids,
      Forall2 id_of l ids /\
      for_fold (test_step name) parts l = Done (<[name := ids0 ++ ids]> parts).
Proof.
  induction 1 as [|record l [id Hid] _ IH]; intros parts ids0 Hparts.
  - exists []. split; [constructor|].
    cbn [for_fold]. rewrite app_nil_r, (insert_id _ _ _ Hparts). reflexivity.
  - destruct (IH (<[name := ids0 ++ [id]]> parts) (ids0 ++ [id]))
      as (ids & Hids & Hrun); [apply lookup_insert_eq|].
    exists (id :: ids). split; [constructor; assumption|].
    cbn [for_fold]. rewrite (test_step_run name parts record id ids0 Hid Hparts).
    rewrite outcome_bind_Done, Hrun.
    rewrite insert_insert_eq, <- app_assoc. reflexivity.
Qed.

Lemma process_run (root_dir : string) (w : world)
    (train_list test_list real_list : list dict) :
  files w !! train_path root_dir = Some train_list ->
  files w !! test_path root_dir = Some test_list ->
  files w !! real_test_path root_dir = Some real_list ->
  Forall labelled train_list -> Forall keyed train_list ->
  Forall named test_list -> Forall named real_list ->
  exists ids_train ks labs ids_test ids_real,
    Forall2 id_of train_list ids_train /\ Forall2 key_of train_list ks /\
    Forall2 label_of train_list labs /\
    Forall2 id_of test_list ids_test /\ Forall2 id_of real_list ids_real /\
    process_json_dataset root_dir w =
    (World (files w)
           (opened w ++ [train_path root_dir; test_path root_dir;
                         real_test_path root_dir]),
     Done (<["real_test" := ids_real]>
             (<["test" := ids_test]>
                (<["train" := ids_train]>
                   (<["test" := []]> (<["train" := []]> (<["real_test" := []]> ∅))))),
           store_all [] (zip ks labs))).
Proof.
  intros Htrain Htest Hreal Hlab Hkey Hnt Hnr.
  set (parts0 := <["test" := []]> (<["train" := []]> (<["real_test" := []]> ∅))
                 : gmap string (list json)).
  destruct (for_fold_train train_list Hlab Hkey parts0 [] [])
    as (ids_train & ks & labs & Hids & Hks & Hlabs & Hrun1);
    [subst parts0; rewrite lookup_insert_ne by discriminate; apply lookup_insert_eq|].
  destruct (for_fold_test "test" test_list Hnt (<["train" := [] ++ ids_train]> parts0) [])
    as (ids_test & Hidt & Hrun2);
    [subst parts0; rewrite lookup_insert_ne by discriminate; apply lookup_insert_eq|].
  destruct (for_fold_test "real_test" real_list Hnr
              (<["test" := [] ++ ids_test]> (<["train" := [] ++ ids_train]> parts0)) [])
    as (ids_real & Hidr & Hrun3);
    [subst parts0; rewrite !lookup_insert_ne by discriminate; apply lookup_insert_eq|].
  exists ids_train, ks, labs, ids_test, ids_real.
  do 5 (split; [assumption|]).
  unfold process_json_dataset, lbind, open_json, lpure. cbn [files opened].
  fold (train_path root_dir) (test_path root_dir) (real_test_path root_dir).
  rewrite Htrain. cbn [files opened]. rewrite Htest. cbn [files opened].
  rewrite Hreal. cbn [files opened]. cbv zeta. fold parts0.
  rewrite Hrun1, outcome_bind_Done. cbn [fst snd].
  rewrite Hrun2, outcome_bind_Done, Hrun3, outcome_bind_Done.
  cbn [app]. rewrite <- !app_assoc. reflexivity.
Qed.

Lemma id_of_fun (l : list dict) (a b : list json) :
  Forall2 id_of l a -> Forall2 id_of l b -> a = b.
Proof.
  intros Ha. revert b. induction Ha as [|r id l a Hid _ IH]; intros b Hb.
  - inversion Hb. reflexivity.
  - inversion Hb as [|? id' ? b' Hid' Hb']; subst.
    unfold id_of in *. f_equal; [congruence | apply IH, Hb'].
Qed.

(** X27.  The partitions.  When the three annotation files exist, every
    train record has the five keys and a file name that can be hashed, and
    every test and real test record has a file name, the loader returns:
    the three partitions list the file names of their file, record by
    record in order, and the three files have been opened in the order
    train, test, real test. *)
Theorem process_json_dataset_partitions (root_dir : string) (w : world)
    (train_list test_list real_list : list dict) :
  files w !! train_path root_dir = Some train_list ->
  files w !! test_path root_dir = Some test_list ->
  files w !! real_test_path root_dir = Some real_list ->
  Forall labelled train_list -> Forall keyed train_list ->
  Forall named test_list -> Forall named real_list ->
  exists partitions labels ids_train ids_test ids_real,
    process_json_dataset root_dir w =
      (World (files w)
             (opened w ++ [train_path root_dir; test_path root_dir;
                           real_test_path root_dir]),
       Done (partitions, labels)) /\
    partitions !! "train" = Some ids_train /\ Forall2 id_of train_list ids_train /\
    partitions !! "test" = Some ids_test /\ Forall2 id_of test_list ids_test /\
    partitions !! "real_test" = Some ids_real /\ Forall2 id_of real_list ids_real.
Proof.
  intros Htrain Htest Hreal Hlab Hkey Hnt Hnr.
  destruct (process_run root_dir w _ _ _ Htrain Htest Hreal Hlab Hkey Hnt Hnr)
    as (ids_train & ks & labs & ids_test & ids_real & H1 & _ & _ & H2 & H3 & Hrun).
  eexists _, _, ids_train, ids_test, ids_real.
  split; [exact Hrun|].
  split; [rewrite !lookup_insert_ne by discriminate; apply lookup_insert_eq|].
  split; [exact H1|].
  split; [rewrite lookup_insert_ne by discriminate; apply lookup_insert_eq|].
  split; [exact H2|].
  split; [apply lookup_insert_eq | exact H3].
Qed.

Lemma key_of_fun (record : dict) (k k' : key) :
  key_of record k -> key_of record k' -> k = k'.
Proof.
  intros (id & Hid & Hk) (id' & Hid' & Hk'). congruence.
Qed.

(** X28.  The labels dictionary: the last record wins.  Under the
    hypotheses of X27, the label stored under the file name of a train
    record is the label of the last record of the file with that file
    name: records that share a file name overwrite each other. *)
Theorem process_json_dataset_labels (root_dir : string) (w : world)
    (train_list test_list real_list : list dict) :
  files w !! train_path root_dir = Some train_list ->
  files w !! test_path root_dir = Some test_list ->
  files w !! real_test_path root_dir = Some real_list ->
  Forall labelled train_list -> Forall keyed train_list ->
  Forall named test_list -> Forall named real_list ->
  exists w' partitions labels,
    process_json_dataset root_dir w = (w', Done (partitions, labels)) /\
    forall (i : nat) (record lab : dict) (k : key),
      train_list !! i = Some record -> key_of record k -> label_of record lab ->
      (forall j record', (i < j)%nat -> train_list !! j = Some record' ->
                         ~ key_of record' k) ->
      getitem k labels = Some lab.
Proof.
  intros Htrain Htest Hreal Hlab Hkey Hnt Hnr.
  destruct (process_run root_dir w _ _ _ Htrain Htest Hreal Hlab Hkey Hnt Hnr)
    as (ids_train & ks & labs & ids_test & ids_real & _ & Hks & Hlabs & _ & _ & Hrun).
  eexists _, _, _. split; [exact Hrun|].
  intros i record lab k Hrec Hk Hl Hlast.
  destruct (Forall2_lookup_l _ _ _ _ _ Hks Hrec) as (k' & Hki & Hk').
  destruct (Forall2_lookup_l _ _ _ _ _ Hlabs Hrec) as (lab' & Hli & Hl').
  assert (k' = k) as -> by (eapply key_of_fun; eassumption).
  assert (lab' = lab) as -> by (unfold label_of in *; congruence).
  rewrite <- (take_drop_middle ks i k Hki), <- (take_drop_middle labs i lab Hli).
  rewrite zip_with_app
    by (rewrite !length_take;
        pose proof (Forall2_length _ _ _ Hks); pose proof (Forall2_length _ _ _ Hlabs);
        lia).
  cbn [zip_with]. apply getitem_store_last.
  apply Forall_lookup_2. intros j [kj labj] Hj. cbn [fst].
  apply lookup_zip_with_Some in Hj as (x & y & Hxy & Hx & _).
  injection Hxy as -> ->.
  rewrite lookup_drop in Hx.
  destruct (Forall2_lookup_r _ _ _ _ _ Hks Hx) as (record' & Hrec' & Hkj).
  intros ->. apply (Hlast (S i + j)%nat record'); [lia | exact Hrec' | exact Hkj].
Qed.

(** X29.  The three files are opened, and parsed, one after the other
    before any record is examined.  When [train.json] is missing, the
    loader raises [FileNotFoundError] having tried that file only; when
    [train.json] is there and parses but [test.json] is missing, it raises
    after these two; when both are there and parse but [real_test.json]
    is missing, after the three.  What the records of the parsed files
    hold plays no part: none of them has been read. *)
Theorem process_json_dataset_missing_file (root_dir : string) (w : world) :
  (files w !! train_path root_dir = None ->
   process_json_dataset root_dir w =
     (World (files w) (opened w ++ [train_path root_dir]),
      Fail (Builtin FileNotFoundError))) /\
  (forall train_list,
     files w !! train_path root_dir = Some train_list ->
     files w !! test_path root_dir = None ->
     process_json_dataset root_dir w =
       (World (files w) (opened w ++ [train_path root_dir; test_path root_dir]),
        Fail (Builtin FileNotFoundError))) /\
  (forall train_list test_list,
     files w !! train_path root_dir = Some train_list ->
     files w !! test_path root_dir = Some test_list ->
     files w !! real_test_path root_dir = None ->
     process_json_dataset root_dir w =
       (World (files w)
              (opened w ++ [train_path root_dir; test_path root_dir;
                            real_test_path root_dir]),
        Fail (Builtin FileNotFoundError))).
Proof.
  unfold process_json_dataset, lbind, open_json, lpure. cbn [files opened].
  fold (train_path root_dir) (test_path root_dir) (real_test_path root_dir).
  split; [|split].
  - intros ->. reflexivity.
  - intros train_list -> Htest. cbn [files opened]. rewrite Htest.
    rewrite <- !app_assoc. reflexivity.
  - intros train_list test_list -> Htest Hreal. cbn [files opened]. rewrite Htest.
    cbn [files opened]. rewrite Hreal. rewrite <- !app_assoc. reflexivity.
Qed.

(** X30.  The loader and the dataset index on the same directory.  Under
    the hypotheses of X27, the [test] partition of the loader is the list
    of sample ids of the dataset built for the [test] split, while the
    dataset built for the [train] split with its default arguments has the
    [train] partition without its last file name. *)
Theorem loader_agrees_with_dataset (root_dir speed_root : string)
    (input_size : R * R) (w : world)
    (train_list test_list real_list : list dict) :
  files w !! train_path root_dir = Some train_list ->
  files w !! test_path root_dir = Some test_list ->
  files w !! real_test_path root_dir = Some real_list ->
  Forall labelled train_list -> Forall keyed train_list ->
  Forall named test_list -> Forall named real_list ->
  exists w0 partitions labels ids_train ids_test,
    process_json_dataset root_dir w = (w0, Done (partitions, labels)) /\
    partitions !! "train" = Some ids_train /\
    partitions !! "test" = Some ids_test /\
    (exists w1 self1,
       construct "test" speed_root root_dir input_size None None None w =
         (w1, Ok self1) /\
       self1 !! "sample_ids" = Some (VIds ids_test)) /\
    (exists w2 self2,
       construct "train" speed_root root_dir input_size None None None w =
         (w2, Ok self2) /\
       self2 !! "sample_ids" =
         Some (VIds (take (length ids_train - 1) ids_train))).
Proof.
  intros Htrain Htest Hreal Hlab Hkey Hnt Hnr.
  destruct (process_run root_dir w _ _ _ Htrain Htest Hreal Hlab Hkey Hnt Hnr)
    as (ids_train & ks & labs & ids_test & ids_real & H1 & _ & _ & H2 & _ & Hrun).
  eexists _, _, _, ids_train, ids_test. split; [exact Hrun|].
  split; [rewrite !lookup_insert_ne by discriminate; apply lookup_insert_eq|].
  split; [rewrite lookup_insert_ne by discriminate; apply lookup_insert_eq|].
  split.
  - destruct (unlabelled_split_run "test" speed_root root_dir input_size None None
                None w test_list (or_introl eq_refl) Htest Hnt I)
      as (w1 & self1 & ids & Hc & Hs & Hall & _).
    exists w1, self1. split; [exact Hc|].
    rewrite (id_of_fun _ _ _ H2 Hall). exact Hs.
  - destruct (mapM_filename train_list Hlab) as (ids & Hids & Hall).
    destruct (mapM_make_label train_list Hlab) as (labels & Hlabels & _).
    destruct (init_train_truncate speed_root root_dir input_size None None w ∅
                train_list ids labels Htrain Hids Hlabels I)
      as (self2 & Hinit & Hs & _).
    eexists _, self2. split; [apply construct_ok, Hinit|].
    cbv zeta in Hs. rewrite slice_to_minus_one in Hs.
    rewrite (id_of_fun _ _ _ H1 Hall). exact Hs.
Qed.

Lemma full_world_train :
  files full_world_example !! train_path "" =
  Some [record_example "img1.jpg"; record_example "img2.jpg";
        record_example "img1.jpg"].
Proof.
  unfold full_world_example. cbn [files].
  change (train_path "") with "train.json".
  rewrite !lookup_insert_ne by discriminate. apply lookup_insert_eq.
Qed.

Lemma full_world_test :
  files full_world_example !! test_path "" =
  Some [<["filename" := JStr "img7.jpg"]> ∅].
Proof.
  unfold full_world_example. cbn [files].
  change (test_path "") with "test.json".
  rewrite lookup_insert_ne by discriminate. apply lookup_insert_eq.
Qed.

Lemma full_world_real_test :
  files full_world_example !! real_test_path "" =
  Some [<["filename" := JStr "real1.jpg"]> ∅].
Proof. apply lookup_insert_eq. Qed.

Lemma full_world_labelled :
  Forall labelled [record_example "img1.jpg"; record_example "img2.jpg";
                   record_example "img1.jpg"].
Proof. repeat constructor; apply record_example_labelled. Qed.

Lemma record_example_keyed (name : string) : keyed (record_example name).
Proof.
  exists (JStr name), (KStr name). split; [apply lookup_insert_eq | reflexivity].
Qed.

Lemma full_world_keyed :
  Forall keyed [record_example "img1.jpg"; record_example "img2.jpg";
                record_example "img1.jpg"].
Proof. repeat constructor; apply record_example_keyed. Qed.

Lemma singleton_named (name : string) :
  Forall named [<["filename" := JStr name]> (∅ : gmap string json)].
Proof. repeat constructor. eexists. apply lookup_insert_eq. Qed.

Lemma process_json_dataset_partitions_witness :
  exists w' partitions labels,
    process_json_dataset "" full_world_example = (w', Done (partitions, labels)) /\
    exists ids, partitions !! "train" = Some ids /\ length ids = 3%nat.
Proof.
  destruct (process_json_dataset_partitions "" full_world_example _ _ _
              full_world_train full_world_test full_world_real_test
              full_world_labelled full_world_keyed
              (singleton_named "img7.jpg") (singleton_named "real1.jpg"))
    as (partitions & labels & ids_train & ids_test & ids_real
        & Hrun & Htr & Hall & _).
  eexists _, partitions, labels. split; [exact Hrun|].
  exists ids_train. split; [exact Htr|].
  symmetry. exact (Forall2_length _ _ _ Hall).
Defined.

Lemma process_json_dataset_labels_witness :
  exists w' partitions labels lab,
    process_json_dataset "" full_world_example = (w', Done (partitions, labels)) /\
    make_label (record_example "img1.jpg") = Ok lab /\
    getitem (KStr "img1.jpg") labels = Some lab.
Proof.
  destruct (process_json_dataset_labels "" full_world_example _ _ _
              full_world_train full_world_test full_world_real_test
              full_world_labelled full_world_keyed
              (singleton_named "img7.jpg") (singleton_named "real1.jpg"))
    as (w' & partitions & labels & Hrun & Hget).
  destruct (make_label_ok _ (record_example_labelled "img1.jpg")) as [lab Hlab].
  exists w', partitions, labels, lab. split; [exact Hrun|]. split; [exact Hlab|].
  apply (Hget 2%nat (record_example "img1.jpg") lab (KStr "img1.jpg")).
  - reflexivity.
  - exists (JStr "img1.jpg"). split; [apply lookup_insert_eq | reflexivity].
  - exact Hlab.
  - intros j record' Hj Hrec.
    destruct j as [|[|[|j]]]; try lia; discriminate.
Defined.

Lemma process_json_dataset_missing_file_witness :
  process_json_dataset "ann" test_world_example =
  (World (files test_world_example) ([] ++ ["ann/train.json"]),
   Fail (Builtin FileNotFoundError)).
Proof.
  destruct (process_json_dataset_missing_file "ann" test_world_example)
    as (H & _).
  apply H. unfold test_world_example. cbn [files].
  change (train_path "ann") with "ann/train.json".
  rewrite lookup_insert_ne by discriminate. apply lookup_empty.
Defined.

Lemma loader_agrees_with_dataset_witness :
  exists w0 partitions labels ids_test w1 self1,
    process_json_dataset "" full_world_example = (w0, Done (partitions, labels)) /\
    partitions !! "test" = Some ids_test /\
    construct "test" "" "" (256%R, 256%R) None None None full_world_example =
      (w1, Ok self1) /\
    self1 !! "sample_ids" = Some (VIds ids_test).
Proof.
  destruct (loader_agrees_with_dataset "" "" (256%R, 256%R) full_world_example _ _ _
              full_world_train full_world_test full_world_real_test
              full_world_labelled full_world_keyed
              (singleton_named "img7.jpg") (singleton_named "real1.jpg"))
    as (w0 & partitions & labels & ids_train & ids_test
        & Hrun & _ & Hte & (w1 & self1 & Hc & Hs) & _).
  exists w0, partitions, labels, ids_test, w1, self1.
  repeat split; assumption.
Defined.

End LoaderFacts.
